(** * fetchStats.py: a shallow embedding of the GitHub language statistics script

    The script resolves an access token, lists a user's public repositories
    page by page, fetches each repository's language byte counts, sums them
    per language and prints a sorted percentage report.

    Effects are modelled by a writer monad over a trace of observable events
    (lines printed, prompts shown, HTTP GET requests issued) combined with
    Python exceptions.  The outside world (environment, files, standard input,
    the GitHub API) is a record [World] read by the functions. *)

From Stdlib Require Import String Ascii List ZArith Lia Bool.
From Stdlib Require Import Sorted Permutation.
From Stdlib Require Import SpecFloat DecimalString.
Import ListNotations.
Open Scope string_scope.
Open Scope Z_scope.

(** ** Strings *)

Definition char_str (c : ascii) : string := String c EmptyString.

(** ["\n"] and the double quote character. *)
Definition nl : string := char_str "010"%char.
Definition dq : string := char_str "034"%char.

(** [str(n)] / [f"{n}"] for a Python [int]. *)
Definition Zstr (n : Z) : string := NilZero.string_of_int (Z.to_int n).

(** [str.isspace] on the characters of the model (code points 0..255). *)
Definition py_isspace (c : ascii) : bool :=
  let n := nat_of_ascii c in
  (Nat.leb 9 n && Nat.leb n 13) || (Nat.leb 28 n && Nat.leb n 32)
  || Nat.eqb n 133 || Nat.eqb n 160.

Fixpoint lstrip (s : string) : string :=
  match s with
  | EmptyString => EmptyString
  | String c s' => if py_isspace c then lstrip s' else s
  end.

Fixpoint rev_str (s : string) (acc : string) : string :=
  match s with
  | EmptyString => acc
  | String c s' => rev_str s' (String c acc)
  end.

Definition rstrip (s : string) : string :=
  rev_str (lstrip (rev_str s EmptyString)) EmptyString.

(** [str.strip()] with no argument. *)
Definition strip (s : string) : string := rstrip (lstrip s).

(** Text-mode [read()]: universal newlines turn ["\r\n"] and a lone ["\r"]
    into ["\n"]. *)
Fixpoint universal_newlines (s : string) : string :=
  match s with
  | EmptyString => EmptyString
  | String c s' =>
      if Ascii.eqb c "013"%char then
        match s' with
        | String d s'' =>
            if Ascii.eqb d "010"%char then String "010"%char (universal_newlines s'')
            else String "010"%char (universal_newlines s')
        | EmptyString => String "010"%char EmptyString
        end
      else String c (universal_newlines s')
  end.

(** Truthiness of a Python [str]. *)
Definition truthy_str (s : string) : bool := negb (String.eqb s "").

(** ** Effects: a trace of events with Python exceptions *)

Inductive event :=
  | Print (line : string)                 (* print(line) *)
  | Prompt (text : string)                (* input(text) shows the prompt *)
  | HttpGet (url : string) (headers : list (string * string)).

Inductive exn :=
  | ValueError (msg : string)
  | RequestException (msg : string)       (* raised by requests.get *)
  | JSONDecodeError                       (* raised by response.json() *)
  | OverflowError                         (* int / int too large for a float *)
  | ZeroDivisionError.

Inductive res (A : Type) :=
  | Ok (a : A)
  | Raise (e : exn)
  | OutOfFuel.                            (* a [while True] loop that did not stop *)
Arguments Ok {A} a.
Arguments Raise {A} e.
Arguments OutOfFuel {A}.

Definition M (A : Type) : Type := (list event * res A)%type.

Definition ret {A} (a : A) : M A := ([], Ok a).

Definition bind {A B} (m : M A) (f : A -> M B) : M B :=
  let '(out1, r) := m in
  match r with
  | Ok a => let '(out2, r2) := f a in (app out1 out2, r2)
  | Raise e => (out1, Raise e)
  | OutOfFuel => (out1, OutOfFuel)
  end.

Notation "x <- m ;; k" := (bind m (fun x => k))
  (at level 61, m at next level, right associativity).
Notation "' p <- m ;; k" := (bind m (fun x => match x with p => k end))
  (at level 61, p pattern, m at next level, right associativity).
Notation "m ;;; k" := (bind m (fun _ : unit => k))
  (at level 61, right associativity).

Definition raise {A} (e : exn) : M A := ([], Raise e).
Definition print (s : string) : M unit := ([Print s], Ok tt).
Definition out_of_fuel {A} : M A := ([], OutOfFuel).

(** [try: m except ValueError as e: ...]: the handler receives [str(e)]. *)
Definition try_value_error {A} (m : M A) : M (A + string) :=
  let '(out, r) := m in
  match r with
  | Ok a => (out, Ok (inl a))
  | Raise (ValueError msg) => (out, Ok (inr msg))
  | Raise e => (out, Raise e)
  | OutOfFuel => (out, OutOfFuel)
  end.

Fixpoint mapM_ {A} (f : A -> M unit) (l : list A) : M unit :=
  match l with
  | [] => ret tt
  | x :: xs => f x ;;; mapM_ f xs
  end.

(** ** The outside world *)

(** A repository record of the listing endpoint: [repo['name']] and
    [repo['owner']['login']]. *)
Record Repo := mkRepo { repo_name : string; owner_login : string }.

(** A decoded [/languages] object, as the dict's [items()] in order. *)
Definition LanguageByteMap := list (string * Z).

(** A response of [requests.get]: its status code, its body as decoded by
    [response.json()] ([None] when it is not valid JSON) and [response.text]. *)
Record response (A : Type) := mkResponse {
  status_code : Z;
  json : option A;
  text : string
}.
Arguments mkResponse {A} status_code json text.
Arguments status_code {A} r.
Arguments json {A} r.
Arguments text {A} r.

(** What the server side of [requests.get] does: it replies, or the request
    fails and [requests.get] raises (connection error, timeout, ...). *)
Inductive reply (A : Type) :=
  | Reply (r : response A)
  | ConnectionFailure (msg : string).
Arguments Reply {A} r.
Arguments ConnectionFailure {A} msg.

(** The contents of [config.json] as seen by [json.load(f)] and [.get]. *)
Inductive config :=
  | ConfigAbsent                           (* os.path.exists is False *)
  | ConfigInvalidJson (msg : string)       (* json.JSONDecodeError *)
  | ConfigReadError (msg : string)         (* any other exception while reading *)
  | ConfigObject (githubTokenPath : option string) (defaultUsername : option string).

(** A file as [open(path, 'r').read()] sees it. *)
Inductive file :=
  | FileText (contents : string)
  | FileUnreadable (msg : string).

Record World := mkWorld {
  env_GITHUB_TOKEN : option string;       (* os.getenv('GITHUB_TOKEN') *)
  config_json : config;
  files : string -> option file;          (* None: os.path.exists is False *)
  stdin_line : string;                    (* the line input() reads *)
  repos_api : string -> reply (list Repo);     (* by request URL *)
  languages_api : string -> reply LanguageByteMap
}.

Definition path_exists (w : World) (p : string) : bool :=
  match files w p with Some _ => true | None => false end.

Definition input (w : World) (prompt : string) : M string :=
  ([Prompt prompt], Ok (stdin_line w)).

(** [requests.get(url, headers=headers)]. *)
Definition requests_get {A} (api : string -> reply A) (url : string)
    (headers : list (string * string)) : M (response A) :=
  match api url with
  | Reply r => ([HttpGet url headers], Ok r)
  | ConnectionFailure msg => ([HttpGet url headers], Raise (RequestException msg))
  end.

(** [response.json()]. *)
Definition response_json {A} (body : option A) : M A :=
  match body with
  | Some a => ret a
  | None => raise JSONDecodeError
  end.

(** [f"{x}"] for an optional string read from the config ([None] prints as
    [None]). *)
Definition py_str_opt (x : option string) : string :=
  match x with Some s => s | None => "None" end.

(** ** getGithubToken *)

Definition token_missing_msg : string :=
  "GitHub Personal Access Token not found. " ++ "Please either:" ++ nl
  ++ "1. Set the 'GITHUB_TOKEN' environment variable, or" ++ nl
  ++ "2. Create a 'config.json' file with the path to your token file:" ++ nl
  ++ "   {" ++ nl
  ++ "     " ++ dq ++ "githubTokenPath" ++ dq ++ ": " ++ dq
  ++ "/path/to/your/token/file" ++ dq ++ nl
  ++ "   }".

(** The [config.json] part of [getGithubToken]; [Some token] is the
    [return token] inside it, [None] falls through to the final [raise]. *)
Definition token_from_config (w : World) : M (option string) :=
  match config_json w with
  | ConfigAbsent => ret None
  | ConfigInvalidJson _ =>
      print "Error reading 'config.json'. Make sure it's valid JSON." ;;; ret None
  | ConfigReadError msg =>
      print ("An error occurred while reading 'config.json': " ++ msg) ;;; ret None
  | ConfigObject tokenPath _ =>
      match tokenPath with
      | Some p =>
          if truthy_str p && path_exists w p then
            match files w p with
            | Some (FileText contents) =>
                let token := strip (universal_newlines contents) in
                if truthy_str token then
                  print ("Using GitHub token from file: " ++ p) ;;; ret (Some token)
                else ret None
            | Some (FileUnreadable msg) =>
                print ("Error reading token file '" ++ p ++ "': " ++ msg) ;;; ret None
            | None => ret None
            end
          else
            print ("Token path not found in config or file does not exist: "
                   ++ py_str_opt tokenPath) ;;; ret None
      | None =>
          print ("Token path not found in config or file does not exist: "
                 ++ py_str_opt tokenPath) ;;; ret None
      end
  end.

(** The part of [getGithubToken] after the environment variable check. *)
Definition token_from_settings (w : World) : M string :=
  t <- token_from_config w ;;
  match t with
  | Some token => ret token
  | None => raise (ValueError token_missing_msg)
  end.

Definition getGithubToken (w : World) : M string :=
  match env_GITHUB_TOKEN w with
  | Some token =>
      if truthy_str token then
        print "Using GitHub token from environment variable 'GITHUB_TOKEN'." ;;; ret token
      else token_from_settings w
  | None => token_from_settings w
  end.

(** ** getUserPublicRepos *)

Definition api_headers (token : string) : list (string * string) :=
  [("Accept", "application/vnd.github+json");
   ("Authorization", "Bearer " ++ token);
   ("X-GitHub-Api-Version", "2022-11-28")].

Definition repos_url (userName : string) (pageNum perPage : Z) : string :=
  "https://api.github.com/users/" ++ userName ++ "/repos?type=public&page="
  ++ Zstr pageNum ++ "&per_page=" ++ Zstr perPage.

(** The [while True] loop; [fuel] bounds its iterations. *)
Fixpoint repos_loop (w : World) (userName : string) (headers : list (string * string))
    (fuel : nat) (pageNum perPage : Z) (repos : list Repo) : M (list Repo) :=
  match fuel with
  | O => out_of_fuel
  | S fuel' =>
      response <- requests_get (repos_api w) (repos_url userName pageNum perPage) headers ;;
      if status_code response =? 200 then
        currentRepos <- response_json (json response) ;;
        match currentRepos with
        | [] => ret repos
        | _ :: _ =>
            repos_loop w userName headers fuel' (pageNum + 1) perPage (app repos currentRepos)
        end
      else
        print ("Error fetching repositories: " ++ Zstr (status_code response)
               ++ " - " ++ text response) ;;; ret repos
  end.

Definition getUserPublicRepos (w : World) (fuel : nat) (userName token : string)
    : M (list Repo) :=
  let pageNum := 1 in
  let perPage := 100 in
  let headers := api_headers token in
  print ("Fetching public repositories for user: " ++ userName ++ "...") ;;;
  repos <- repos_loop w userName headers fuel pageNum perPage [] ;;
  print ("Found " ++ Zstr (Z.of_nat (length repos)) ++ " public repositories.") ;;;
  ret repos.

(** ** getRepoLanguages *)

Definition languages_url (owner repoName : string) : string :=
  "https://api.github.com/repos/" ++ owner ++ "/" ++ repoName ++ "/languages".

Definition getRepoLanguages (w : World) (owner repoName token : string)
    : M LanguageByteMap :=
  response <- requests_get (languages_api w) (languages_url owner repoName)
                (api_headers token) ;;
  if status_code response =? 200 then response_json (json response)
  else
    print ("Warning: Could not fetch languages for " ++ owner ++ "/" ++ repoName ++ ". "
           ++ "Status code: " ++ Zstr (status_code response) ++ " - "
           ++ text response) ;;; ret [].

(** ** getDefaultUsername *)

Definition getDefaultUsername (w : World) : M (option string) :=
  match config_json w with
  | ConfigAbsent => ret None
  | ConfigInvalidJson msg | ConfigReadError msg =>
      print ("Error reading config file: " ++ msg) ;;; ret None
  | ConfigObject _ defaultUsername => ret defaultUsername
  end.

(** ** Aggregation: [totalLanguageBreakdown = defaultdict(int)]

    A dict keeps insertion order; [d[lang] += n] on a missing key first
    inserts [lang] with [int() = 0] at the end, then adds. *)
Definition Breakdown := list (string * Z).

Fixpoint add_count (bd : Breakdown) (lang : string) (n : Z) : Breakdown :=
  match bd with
  | [] => [(lang, 0 + n)]
  | (l, c) :: rest =>
      if String.eqb l lang then (l, c + n) :: rest else (l, c) :: add_count rest lang n
  end.

(** [for lang, bytesCount in languages.items(): totalLanguageBreakdown[lang] += bytesCount] *)
Definition add_languages (bd : Breakdown) (languages : LanguageByteMap) : Breakdown :=
  fold_left (fun acc '(lang, bytesCount) => add_count acc lang bytesCount) languages bd.

(** The body of [for repo in repositories] after the fetch: [if languages:]
    count the repository and add its languages. *)
Definition agg_step (acc : Breakdown * Z) (languages : LanguageByteMap) : Breakdown * Z :=
  let '(bd, repoCount) := acc in
  match languages with
  | [] => (bd, repoCount)
  | _ :: _ => (add_languages bd languages, repoCount + 1)
  end.

(** The breakdown and count built from the fetched maps, in order. *)
Definition aggregate (maps : list LanguageByteMap) : Breakdown * Z :=
  fold_left agg_step maps ([], 0).

Fixpoint analyze (w : World) (token : string) (repositories : list Repo)
    (acc : Breakdown * Z) : M (Breakdown * Z) :=
  match repositories with
  | [] => ret acc
  | repo :: rest =>
      print ("  Fetching languages for " ++ owner_login repo ++ "/" ++ repo_name repo
             ++ "...") ;;;
      languages <- getRepoLanguages w (owner_login repo) (repo_name repo) token ;;
      analyze w token rest (agg_step acc languages)
  end.

(** ** Python floats (IEEE binary64, round to nearest even) *)

Definition float := spec_float.
Definition prec : Z := 53.
Definition emax : Z := 1024.

(** An [int] as an exact (not yet rounded) binary number [n * 2^0]. *)
Definition exact_of_Z (n : Z) : float :=
  match n with
  | Z0 => S754_zero false
  | Zpos p => S754_finite false p 0
  | Zneg p => S754_finite true p 0
  end.

(** [float(n)]: correctly rounded. *)
Definition float_of_Z (n : Z) : float := binary_normalize prec emax n 0 false.

(** [a / b] on two [int]s: the correctly rounded quotient; [OverflowError]
    when it is too large for a float. *)
Definition py_truediv (a b : Z) : M float :=
  if b =? 0 then raise ZeroDivisionError
  else
    match SFdiv prec emax (exact_of_Z a) (exact_of_Z b) with
    | S754_infinity _ => raise OverflowError
    | q => ret q
    end.

(** [x * n] for a float [x] and an [int] [n]. *)
Definition py_mul_int (x : float) (n : Z) : float := SFmul prec emax x (float_of_Z n).

(** [num / den] rounded to an integer, ties to even ([den > 0]). *)
Definition round_half_even (num den : Z) : Z :=
  let q := num / den in
  let r := num mod den in
  match Z.compare (2 * r) den with
  | Lt => q
  | Gt => q + 1
  | Eq => if Z.even q then q else q + 1
  end.

(** [q / 100] written with two decimals ([q >= 0]). *)
Definition fixed2 (q : Z) : string :=
  let r := q mod 100 in
  Zstr (q / 100) ++ "." ++ (if r <? 10 then "0" else "") ++ Zstr r.

(** [f"{x:.2f}"]: the exact binary value rounded half to even at two
    decimals. *)
Definition format_2f (x : float) : string :=
  match x with
  | S754_zero s => (if s then "-" else "") ++ "0.00"
  | S754_infinity s => if s then "-inf" else "inf"
  | S754_nan => "nan"
  | S754_finite s m e =>
      (if s then "-" else "")
      ++ fixed2 (if 0 <=? e then Zpos m * 2 ^ e * 100
                 else round_half_even (Zpos m * 100) (2 ^ (- e)))
  end.

(** ** Sorting: [sorted(items, key=lambda item: item[1], reverse=True)]

    Python's sort is stable, and [reverse=True] keeps items with equal keys
    in their original order.  Every stable sort gives the same list, so an
    insertion sort stands for it: an item is placed before the first
    later-sorted item whose count is not larger. *)
Fixpoint insert_desc (x : string * Z) (l : list (string * Z)) : list (string * Z) :=
  match l with
  | [] => [x]
  | y :: ys => if snd x <? snd y then y :: insert_desc x ys else x :: y :: ys
  end.

Fixpoint sort_desc (l : list (string * Z)) : list (string * Z) :=
  match l with
  | [] => []
  | x :: xs => insert_desc x (sort_desc xs)
  end.

(** [sum(totalLanguageBreakdown.values())] *)
Definition sum_values (bd : Breakdown) : Z := fold_left (fun s '(_, b) => s + b) bd 0.

(** ** The report at the end of [main] *)

(** The [sizeStr] chain. *)
Definition size_str (bytesCount : Z) : M string :=
  if bytesCount <? 1024 then ret (Zstr bytesCount ++ " B")
  else if bytesCount <? 1024 ^ 2 then
    x <- py_truediv bytesCount 1024 ;; ret (format_2f x ++ " KB")
  else if bytesCount <? 1024 ^ 3 then
    x <- py_truediv bytesCount (1024 ^ 2) ;; ret (format_2f x ++ " MB")
  else
    x <- py_truediv bytesCount (1024 ^ 3) ;; ret (format_2f x ++ " GB").

Definition language_line (totalBytes : Z) (item : string * Z) : M unit :=
  let '(lang, bytesCount) := item in
  q <- py_truediv bytesCount totalBytes ;;
  let percentage := py_mul_int q 100 in
  sizeStr <- size_str bytesCount ;;
  print (lang ++ ": " ++ format_2f percentage ++ "% (" ++ sizeStr ++ ")").

Definition header_line (repoCount : Z) (userName : string) : string :=
  nl ++ "--- Language Breakdown for all " ++ Zstr repoCount
  ++ " Public Repositories of '" ++ userName ++ "' ---".

Definition separator_line : string :=
  nl ++ "-----------------------------------------------------------".

Definition report (userName : string) (totalLanguageBreakdown : Breakdown)
    (repoCount : Z) : M unit :=
  match totalLanguageBreakdown with
  | [] => print "No language data found for any of the public repositories."
  | _ :: _ =>
      print (header_line repoCount userName) ;;;
      let totalBytes := sum_values totalLanguageBreakdown in
      if totalBytes =? 0 then print "No code bytes found across all repositories."
      else
        let sortedLanguages := sort_desc totalLanguageBreakdown in
        mapM_ (language_line totalBytes) sortedLanguages ;;;
        print separator_line
  end.

(** ** main *)

Definition pat_instructions : list string :=
  [nl ++ "Please generate a Personal Access Token (PAT) on GitHub:";
   "1. Go to your GitHub Settings -> Developer settings -> Personal access tokens -> Tokens (classic) or Fine-grained tokens.";
   "2. Click 'Generate new token'.";
   "3. Give it a descriptive name (e.g., 'RepoLanguageStats').";
   "4. For 'Tokens (classic)', grant at least the 'public_repo' scope if you only need public repos, or 'repo' for all repos. For 'Fine-grained tokens', grant 'Read' access to 'Contents' for selected repositories or all public repositories.";
   "5. Copy the generated token to a file.";
   "6. Create a 'config.json' file with the path to your token file:";
   "   ```json";
   "   {";
   "     " ++ dq ++ "githubTokenPath" ++ dq ++ ": " ++ dq ++ "/path/to/your/token/file" ++ dq;
   "   }";
   "   ```"].

Definition read_username (w : World) : M string :=
  defaultUsername <- getDefaultUsername w ;;
  match defaultUsername with
  | Some d =>
      if truthy_str d then
        print ("Using default username from config: " ++ d) ;;;
        line <- input w ("Enter the GitHub username (press Enter to use " ++ d ++ "): ") ;;
        let userName := strip line in
        ret (if truthy_str userName then userName else d)
      else
        line <- input w "Enter the GitHub username: " ;; ret (strip line)
  | None =>
      line <- input w "Enter the GitHub username: " ;; ret (strip line)
  end.

Definition main (w : World) (fuel : nat) : M unit :=
  t <- try_value_error (getGithubToken w) ;;
  match t with
  | inr e => print e ;;; mapM_ print pat_instructions
  | inl githubToken =>
      userName <- read_username w ;;
      if negb (truthy_str userName) then print "Username cannot be empty. Exiting."
      else
        repositories <- getUserPublicRepos w fuel userName githubToken ;;
        match repositories with
        | [] => print ("No public repositories found for user '" ++ userName
                       ++ "' or an error occurred.")
        | _ :: _ =>
            print (nl ++ "Analyzing languages for each repository...") ;;;
            '(totalLanguageBreakdown, repoCount) <-
              analyze w githubToken repositories ([], 0) ;;
            report userName totalLanguageBreakdown repoCount
        end
  end.

(** ** Lookups in a breakdown and in a sequence of maps *)

Fixpoint lookup (lang : string) (bd : Breakdown) : option Z :=
  match bd with
  | [] => None
  | (l, c) :: rest => if String.eqb l lang then Some c else lookup lang rest
  end.

(** The sum of the byte counts of every entry for [lang]. *)
Fixpoint sum_for (lang : string) (entries : list (string * Z)) : Z :=
  match entries with
  | [] => 0
  | (l, b) :: rest => (if String.eqb l lang then b else 0) + sum_for lang rest
  end.

Definition occurs (lang : string) (entries : list (string * Z)) : bool :=
  existsb (fun e => String.eqb (fst e) lang) entries.

Definition add_entries (bd : Breakdown) (entries : list (string * Z)) : Breakdown :=
  fold_left (fun acc '(lang, bytesCount) => add_count acc lang bytesCount) entries bd.

(** A 200 response carrying [page] is what the listing endpoint answers at
    [url]. *)
Definition serves_page (w : World) (url : string) (page : list Repo) : Prop :=
  exists t, repos_api w url = Reply (mkResponse 200 (Some page) t).

(** [ps] are the successive non-empty pages served from page [pageNum] on. *)
Fixpoint serves_pages (w : World) (userName : string) (pageNum : Z)
    (ps : list (list Repo)) : Prop :=
  match ps with
  | [] => True
  | p :: ps' =>
      serves_page w (repos_url userName pageNum 100) p /\ p <> []
      /\ serves_pages w userName (pageNum + 1) ps'
  end.

(** The listing requests for [n] consecutive pages from [pageNum] on. *)
Fixpoint page_gets (userName : string) (headers : list (string * string))
    (pageNum : Z) (n : nat) : list event :=
  match n with
  | O => []
  | S n' => HttpGet (repos_url userName pageNum 100) headers
            :: page_gets userName headers (pageNum + 1) n'
  end.

(** ** Concrete runs *)

(** The token variable is set; the settings point to another token. *)
Definition w_env_token : World :=
  mkWorld (Some "ghp_fromEnvironment")
    (ConfigObject (Some "/home/octocat/.gh_token") (Some "octocat"))
    (fun p => if String.eqb p "/home/octocat/.gh_token"
              then Some (FileText "ghp_fromFile") else None)
    "" (fun _ => ConnectionFailure "offline") (fun _ => ConnectionFailure "offline").

(** No token variable; the settings name a token file holding ["abc123\n"]. *)
Definition w_token_file : World :=
  mkWorld None
    (ConfigObject (Some "/home/octocat/.gh_token") (Some "octocat"))
    (fun p => if String.eqb p "/home/octocat/.gh_token"
              then Some (FileText ("abc123" ++ nl)) else None)
    "" (fun _ => ConnectionFailure "offline") (fun _ => ConnectionFailure "offline").

(** [n] repository records named [r<k>] for [k] from [first] on. *)
Definition repo_page (first n : nat) : list Repo :=
  map (fun k => mkRepo ("r" ++ Zstr (Z.of_nat k)) "octocat") (seq first n).

(** The listing endpoint serves 100 records on pages 1 and 2, then empty
    pages. *)
Definition w_two_pages : World :=
  mkWorld (Some "tok") ConfigAbsent (fun _ => None) "octocat"
    (fun url =>
       if String.eqb url (repos_url "octocat" 1 100)
       then Reply (mkResponse 200 (Some (repo_page 0 100)) "")
       else if String.eqb url (repos_url "octocat" 2 100)
       then Reply (mkResponse 200 (Some (repo_page 100 100)) "")
       else Reply (mkResponse 200 (Some []) "[]"))
    (fun _ => Reply (mkResponse 200 (Some []) "{}")).

(** The network is down when the repositories are listed. *)
Definition w_network_down : World :=
  mkWorld (Some "tok") ConfigAbsent (fun _ => None) "octocat"
    (fun _ => ConnectionFailure "Max retries exceeded with url")
    (fun _ => ConnectionFailure "Max retries exceeded with url").

(** The languages of [octocat/b] cannot be fetched (404); the others have
    some. *)
Definition w_lang_not_found : World :=
  mkWorld (Some "tok") ConfigAbsent (fun _ => None) "octocat"
    (fun _ => Reply (mkResponse 200 (Some []) "[]"))
    (fun url =>
       if String.eqb url (languages_url "octocat" "b")
       then Reply (mkResponse 404 None "Not Found")
       else Reply (mkResponse 200 (Some [("Python", 300); ("C", 200)]) "")).

(** [line] is the report line of [item]: its percentage of [totalBytes] and
    its size, as the loop of the report computes them. *)
Definition report_line_of (totalBytes : Z) (item : string * Z) (line : string) : Prop :=
  exists q sizeStr,
    snd (py_truediv (snd item) totalBytes) = Ok q
    /\ snd (size_str (snd item)) = Ok sizeStr
    /\ line = fst item ++ ": " ++ format_2f (py_mul_int q 100) ++ "% (" ++ sizeStr ++ ")".

(** The order of the report: a count never smaller than the next one. *)
Definition count_ge (x y : string * Z) : Prop := snd y <= snd x.


(** ** Observations on traces and fetches *)

(** The URLs of the HTTP requests of a trace, in order. *)
Fixpoint gets_of (tr : list event) : list string :=
  match tr with
  | [] => []
  | HttpGet url _ :: rest => url :: gets_of rest
  | _ :: rest => gets_of rest
  end.

Definition is_get (e : event) : bool :=
  match e with HttpGet _ _ => true | _ => false end.

(** A request of the trace goes to the GitHub API with the headers of
    [token]. *)
Definition api_request (token : string) (e : event) : Prop :=
  match e with
  | HttpGet url headers =>
      headers = api_headers token
      /\ exists rest, url = "https://api.github.com/" ++ rest
  | _ => True
  end.

(** The map [getRepoLanguages] yields for [repo] without raising: the body of
    a 200 reply, an empty map for another status; [None] when it raises. *)
Definition language_map_of (w : World) (repo : Repo) : option LanguageByteMap :=
  match languages_api w (languages_url (owner_login repo) (repo_name repo)) with
  | Reply resp => if status_code resp =? 200 then json resp else Some []
  | ConnectionFailure _ => None
  end.

(** The sum of all byte counts of a list of entries. *)
Definition total_of (entries : list (string * Z)) : Z :=
  fold_right (fun e s => snd e + s) 0 entries.

Definition nonempty_map (m : LanguageByteMap) : bool :=
  match m with [] => false | _ :: _ => true end.

(** No token anywhere: no variable and no [config.json]. *)
Definition w_no_token : World :=
  mkWorld None ConfigAbsent (fun _ => None) "octocat"
    (fun _ => ConnectionFailure "offline") (fun _ => ConnectionFailure "offline").

(** The keys of [entries] not in [seen], each once, in the order of their
    first appearance. *)
Fixpoint new_keys (seen : list string) (entries : list (string * Z)) : list string :=
  match entries with
  | [] => []
  | (k, _) :: rest =>
      if existsb (String.eqb k) seen then new_keys seen rest
      else k :: new_keys (app seen [k]) rest
  end.

(** The token lookup raises the "not found" [ValueError] after printing
    [out]. *)
Definition token_lookup_fails (w : World) (out : list event) : Prop :=
  getGithubToken w = (out, Raise (ValueError token_missing_msg)).

(** A token in the environment, no settings, and a blank input line. *)
Definition w_blank_username : World :=
  mkWorld (Some "tok") ConfigAbsent (fun _ => None) "   "
    (fun _ => ConnectionFailure "offline") (fun _ => ConnectionFailure "offline").

(** [octocat] has the repositories [a] and [b] on its first page; the
    languages endpoint answers with [langs]. *)
Definition w_repos_ab (langs : string -> reply LanguageByteMap) : World :=
  mkWorld (Some "tok") ConfigAbsent (fun _ => None) "octocat"
    (fun url =>
       if String.eqb url (repos_url "octocat" 1 100)
       then Reply (mkResponse 200 (Some [mkRepo "a" "octocat"; mkRepo "b" "octocat"]) "")
       else Reply (mkResponse 200 (Some []) "[]"))
    langs.

(** Only the languages of [octocat/a] can be fetched: they are [m]; the
    other repositories answer 404. *)
Definition langs_for_a (m : LanguageByteMap) : string -> reply LanguageByteMap :=
  fun url =>
    if String.eqb url (languages_url "octocat" "a")
    then Reply (mkResponse 200 (Some m) "")
    else Reply (mkResponse 404 None "Not Found").

Definition repos_ab : list Repo := [mkRepo "a" "octocat"; mkRepo "b" "octocat"].

Definition w_ab_python : World := w_repos_ab (langs_for_a [("Python", 300); ("C", 200)]).

Definition w_ab_no_data : World := w_repos_ab (langs_for_a []).

Definition w_ab_zero_bytes : World := w_repos_ab (langs_for_a [("Text", 0)]).

(** * Properties *)

(** ** Monad facts *)

Lemma snd_bind {A B} (m : M A) (f : A -> M B) :
  snd (bind m f) =
  match snd m with
  | Ok a => snd (f a)
  | Raise e => Raise e
  | OutOfFuel => OutOfFuel
  end.
Proof.
  destruct m as [o r]; destruct r as [a|e|]; simpl; try reflexivity.
  destruct (f a); reflexivity.
Qed.

Lemma bind_ret_l {A B} (a : A) (f : A -> M B) : bind (ret a) f = f a.
Proof. unfold bind, ret; simpl; destruct (f a); reflexivity. Qed.

Lemma bind_single_ok {A B} (o : list event) (a : A) (f : A -> M B) :
  bind (o, Ok a) f = (app o (fst (f a)), snd (f a)).
Proof. unfold bind; destruct (f a); reflexivity. Qed.

(** ** Aggregation facts *)

Lemma lookup_add_count bd l n lang :
  lookup lang (add_count bd l n) =
  if String.eqb l lang
  then Some (match lookup l bd with Some c => c | None => 0 end + n)
  else lookup lang bd.
Proof.
  induction bd as [|[l0 c0] rest IH]; simpl.
  - destruct (String.eqb l lang); reflexivity.
  - destruct (String.eqb_spec l0 l) as [->|Hne]; simpl.
    + destruct (String.eqb_spec l lang); reflexivity.
    + rewrite IH. destruct (String.eqb_spec l lang) as [->|]; simpl.
      * apply String.eqb_neq in Hne; rewrite Hne; reflexivity.
      * reflexivity.
Qed.

Lemma in_keys_add_count bd l n k :
  In k (map fst (add_count bd l n)) <-> k = l \/ In k (map fst bd).
Proof.
  induction bd as [|[l0 c0] rest IH]; simpl.
  - split; intros H; intuition congruence.
  - destruct (String.eqb_spec l0 l) as [->|]; simpl.
    + split; intros H; intuition congruence.
    + rewrite IH; split; intros H; intuition congruence.
Qed.

Lemma nodup_add_count bd l n :
  NoDup (map fst bd) -> NoDup (map fst (add_count bd l n)).
Proof.
  induction bd as [|[l0 c0] rest IH]; simpl; intros Hnd.
  - constructor; [intros []|constructor].
  - inversion Hnd as [|? ? Hnin Hnd']; subst.
    destruct (String.eqb_spec l0 l) as [->|Hne]; simpl.
    + constructor; assumption.
    + constructor; [|apply IH; assumption].
      rewrite in_keys_add_count; intros [->|]; [apply Hne; reflexivity|contradiction].
Qed.

Lemma fst_fold_agg_step maps bd cnt :
  fst (fold_left agg_step maps (bd, cnt)) = add_entries bd (concat maps).
Proof.
  revert bd cnt; induction maps as [|m maps IH]; intros bd cnt; simpl.
  - reflexivity.
  - destruct m as [|e es]; simpl.
    + apply IH.
    + rewrite IH. unfold add_entries, add_languages.
      rewrite fold_left_app. reflexivity.
Qed.

Lemma lookup_add_entries entries bd lang :
  lookup lang (add_entries bd entries) =
  match lookup lang bd with
  | Some c => Some (c + sum_for lang entries)
  | None => if occurs lang entries then Some (sum_for lang entries) else None
  end.
Proof.
  unfold add_entries, occurs.
  revert bd; induction entries as [|[l b] rest IH]; intros bd; simpl.
  - destruct (lookup lang bd); [f_equal; lia|reflexivity].
  - rewrite IH, lookup_add_count.
    destruct (String.eqb_spec l lang) as [->|Hne]; simpl.
    + destruct (lookup lang bd); f_equal; lia.
    + destruct (lookup lang bd); [f_equal; lia|].
      destruct (existsb _ rest); reflexivity.
Qed.

Lemma nodup_add_entries entries bd :
  NoDup (map fst bd) -> NoDup (map fst (add_entries bd entries)).
Proof.
  unfold add_entries.
  revert bd; induction entries as [|[l b] rest IH]; intros bd Hnd; simpl.
  - exact Hnd.
  - apply IH, nodup_add_count, Hnd.
Qed.

(** ** Pagination facts *)

Lemma repos_loop_pages w userName headers ps :
  forall pageNum acc fuel,
  serves_pages w userName pageNum ps ->
  (length ps <= fuel)%nat ->
  repos_loop w userName headers fuel pageNum 100 acc =
  let '(o, r) := repos_loop w userName headers (fuel - length ps)
                   (pageNum + Z.of_nat (length ps)) 100 (app acc (concat ps)) in
  (app (page_gets userName headers pageNum (length ps)) o, r).
Proof.
  induction ps as [|p ps IH]; intros pageNum acc fuel Hpages Hfuel; simpl.
  - rewrite Nat.sub_0_r, Z.add_0_r, app_nil_r.
    destruct (repos_loop _ _ _ _ _ _ _); reflexivity.
  - destruct Hpages as [[t Hp] [Hne Hpages]].
    destruct fuel as [|fuel]; [simpl in Hfuel; lia|].
    simpl in Hfuel.
    simpl repos_loop. unfold requests_get. rewrite Hp.
    rewrite bind_single_ok. simpl.
    destruct p as [|r rs]; [contradiction|].
    rewrite (IH (pageNum + 1) (app acc (r :: rs)) fuel Hpages ltac:(lia)).
    replace (pageNum + Z.pos (Pos.of_succ_nat (length ps)))
      with (pageNum + 1 + Z.of_nat (length ps)) by lia.
    rewrite <- app_assoc.
    destruct (repos_loop _ _ _ _ _ _ _); reflexivity.
Qed.

Lemma repos_loop_empty_page w userName headers fuel pageNum acc :
  serves_page w (repos_url userName pageNum 100) [] ->
  repos_loop w userName headers (S fuel) pageNum 100 acc =
  ([HttpGet (repos_url userName pageNum 100) headers], Ok acc).
Proof.
  intros [t Ht]. simpl. unfold requests_get. rewrite Ht. reflexivity.
Qed.

Lemma repos_loop_bad_status w userName headers fuel pageNum acc code body txt :
  repos_api w (repos_url userName pageNum 100) = Reply (mkResponse code body txt) ->
  code <> 200 ->
  repos_loop w userName headers (S fuel) pageNum 100 acc =
  ([HttpGet (repos_url userName pageNum 100) headers;
    Print ("Error fetching repositories: " ++ Zstr code ++ " - " ++ txt)], Ok acc).
Proof.
  intros Ht Hc. simpl. unfold requests_get. rewrite Ht.
  rewrite bind_single_ok. simpl.
  apply Z.eqb_neq in Hc. rewrite Hc. reflexivity.
Qed.

Lemma repos_loop_invalid_json w userName headers fuel pageNum acc txt :
  repos_api w (repos_url userName pageNum 100) = Reply (mkResponse 200 None txt) ->
  repos_loop w userName headers (S fuel) pageNum 100 acc =
  ([HttpGet (repos_url userName pageNum 100) headers], Raise JSONDecodeError).
Proof.
  intros Ht. simpl. unfold requests_get. rewrite Ht. reflexivity.
Qed.

Lemma repos_loop_connection_failure w userName headers fuel pageNum acc msg :
  repos_api w (repos_url userName pageNum 100) = ConnectionFailure msg ->
  repos_loop w userName headers (S fuel) pageNum 100 acc =
  ([HttpGet (repos_url userName pageNum 100) headers], Raise (RequestException msg)).
Proof.
  intros Ht. simpl. unfold requests_get. rewrite Ht. reflexivity.
Qed.

Lemma page_gets_snoc userName headers k :
  forall pageNum,
  page_gets userName headers pageNum (S k) =
  app (page_gets userName headers pageNum k)
    [HttpGet (repos_url userName (pageNum + Z.of_nat k) 100) headers].
Proof.
  induction k as [|k IH]; intros pageNum.
  - simpl. rewrite Z.add_0_r. reflexivity.
  - change (page_gets userName headers pageNum (S (S k)))
      with (HttpGet (repos_url userName pageNum 100) headers
            :: page_gets userName headers (pageNum + 1) (S k)).
    rewrite IH. simpl.
    replace (pageNum + 1 + Z.of_nat k) with (pageNum + Z.pos (Pos.of_succ_nat k)) by lia.
    reflexivity.
Qed.

(** The lister after the non-empty pages [ps]: [ps] are requested in order
    and their records accumulated, and the loop goes on at the next page. *)
Lemma getUserPublicRepos_after_pages w userName token fuel ps :
  serves_pages w userName 1 ps ->
  (length ps < fuel)%nat ->
  exists fuel',
  fuel = (length ps + S fuel')%nat /\
  getUserPublicRepos w fuel userName token =
  bind (print ("Fetching public repositories for user: " ++ userName ++ "..."))
    (fun _ =>
       bind (let '(o, r) := repos_loop w userName (api_headers token) (S fuel')
                              (1 + Z.of_nat (length ps)) 100 (concat ps) in
             (app (page_gets userName (api_headers token) 1 (length ps)) o, r))
         (fun repos =>
            bind (print ("Found " ++ Zstr (Z.of_nat (length repos))
                         ++ " public repositories."))
              (fun _ => ret repos))).
Proof.
  intros Hp Hf.
  destruct (fuel - length ps)%nat as [|k] eqn:E; [lia|].
  exists k. split; [lia|].
  unfold getUserPublicRepos.
  rewrite (repos_loop_pages _ _ _ ps 1 [] fuel Hp ltac:(lia)).
  rewrite E. reflexivity.
Qed.

Lemma getUserPublicRepos_pages w userName token fuel ps :
  serves_pages w userName 1 ps ->
  serves_page w (repos_url userName (1 + Z.of_nat (length ps)) 100) [] ->
  (length ps < fuel)%nat ->
  getUserPublicRepos w fuel userName token =
  (Print ("Fetching public repositories for user: " ++ userName ++ "...")
   :: app (page_gets userName (api_headers token) 1 (S (length ps)))
        [Print ("Found " ++ Zstr (Z.of_nat (length (concat ps))) ++ " public repositories.")],
   Ok (concat ps)).
Proof.
  intros Hp He Hf.
  destruct (getUserPublicRepos_after_pages w userName token fuel ps Hp Hf)
    as [fuel' [_ ->]].
  rewrite repos_loop_empty_page by exact He.
  rewrite page_gets_snoc. simpl. rewrite <- app_assoc. reflexivity.
Qed.

(** ** Token facts *)

Lemma truthy_str_nonempty s : truthy_str s = true -> s <> "".
Proof.
  unfold truthy_str. intros H Hs. subst. discriminate H.
Qed.

Lemma token_from_config_result w :
  snd (token_from_config w) = Ok None
  \/ exists t, t <> "" /\ snd (token_from_config w) = Ok (Some t).
Proof.
  unfold token_from_config.
  destruct (config_json w) as [| | |[p|] du]; cbn; auto.
  destruct (truthy_str p && path_exists w p); cbn; auto.
  destruct (files w p) as [[c|m]|]; cbn; auto.
  destruct (truthy_str (strip (universal_newlines c))) eqn:E; cbn; auto.
  right. eexists; split; [apply truthy_str_nonempty, E|reflexivity].
Qed.

(** * Claims *)

(** C1: the aggregate breakdown built by the per-repository loop of [main]
    has unique language keys, and maps each language to the sum of all its
    byte counts over the fetched maps (an entry starts at 0 when the language
    is first seen, then every occurrence adds); a language never seen has no
    entry. *)
Theorem aggregate_sums_by_language (maps : list LanguageByteMap) :
  NoDup (map fst (fst (aggregate maps))) /\
  forall lang,
    lookup lang (fst (aggregate maps)) =
    if occurs lang (concat maps) then Some (sum_for lang (concat maps)) else None.
Proof.
  unfold aggregate. rewrite fst_fold_agg_step. split.
  - apply nodup_add_entries. constructor.
  - intros lang. rewrite lookup_add_entries. reflexivity.
Qed.

(** C2: when [GITHUB_TOKEN] is set to a non-empty value, [getGithubToken]
    returns it whatever the settings file and the file system hold; the
    settings part runs only when the variable is unset or empty. *)
Theorem getGithubToken_env_preferred (w : World) :
  (forall token, env_GITHUB_TOKEN w = Some token -> token <> "" ->
     getGithubToken w =
     ([Print "Using GitHub token from environment variable 'GITHUB_TOKEN'."], Ok token))
  /\ (env_GITHUB_TOKEN w = None \/ env_GITHUB_TOKEN w = Some "" ->
      getGithubToken w = token_from_settings w).
Proof.
  split.
  - intros token Henv Hne. unfold getGithubToken. rewrite Henv.
    unfold truthy_str. apply String.eqb_neq in Hne. rewrite Hne. reflexivity.
  - intros [Henv|Henv]; unfold getGithubToken; rewrite Henv; reflexivity.
Qed.

Lemma getGithubToken_env_preferred_witness :
  getGithubToken w_env_token =
  ([Print "Using GitHub token from environment variable 'GITHUB_TOKEN'."],
   Ok "ghp_fromEnvironment")
  /\ getGithubToken (mkWorld None ConfigAbsent (fun _ => None) ""
                       (fun _ => ConnectionFailure "")
                       (fun _ => ConnectionFailure ""))
     = token_from_settings (mkWorld None ConfigAbsent (fun _ => None) ""
                              (fun _ => ConnectionFailure "")
                              (fun _ => ConnectionFailure "")).
Proof.
  split.
  - apply (proj1 (getGithubToken_env_preferred w_env_token)); [reflexivity|discriminate].
  - apply (proj2 (getGithubToken_env_preferred _)). left. reflexivity.
Defined.

(** C3: with [GITHUB_TOKEN] unset and a settings file whose
    [githubTokenPath] names an existing file holding ["abc123\n"],
    [getGithubToken] returns the stripped ["abc123"]. *)
Theorem getGithubToken_settings_file_trimmed (w : World) (tokenPath : string)
    (defaultUsername : option string)
    (Henv : env_GITHUB_TOKEN w = None)
    (Hcfg : config_json w = ConfigObject (Some tokenPath) defaultUsername)
    (Hpath : tokenPath <> "")
    (Hfile : files w tokenPath = Some (FileText ("abc123" ++ nl))) :
  getGithubToken w = ([Print ("Using GitHub token from file: " ++ tokenPath)], Ok "abc123").
Proof.
  unfold getGithubToken, token_from_settings, token_from_config.
  rewrite Henv, Hcfg. unfold path_exists. rewrite Hfile.
  unfold truthy_str at 1. apply String.eqb_neq in Hpath. rewrite Hpath.
  reflexivity.
Qed.

Lemma getGithubToken_settings_file_trimmed_witness :
  getGithubToken w_token_file =
  ([Print ("Using GitHub token from file: " ++ "/home/octocat/.gh_token")], Ok "abc123").
Proof.
  apply (getGithubToken_settings_file_trimmed w_token_file "/home/octocat/.gh_token"
           (Some "octocat")); [reflexivity|reflexivity|discriminate|reflexivity].
Defined.

(** C4: the lister requests pages 1, 2, ... with [per_page=100] and stops at
    the first empty page, returning the records of the earlier pages in
    response order; in particular with 100 records on pages 1 and 2 and an
    empty page 3 it returns those 200 records and requests pages 1, 2 and 3
    only. *)
Theorem getUserPublicRepos_stops_at_first_empty_page (w : World)
    (userName token : string) (fuel : nat) :
  (forall ps,
     serves_pages w userName 1 ps ->
     serves_page w (repos_url userName (1 + Z.of_nat (length ps)) 100) [] ->
     (length ps < fuel)%nat ->
     getUserPublicRepos w fuel userName token =
     (Print ("Fetching public repositories for user: " ++ userName ++ "...")
      :: app (page_gets userName (api_headers token) 1 (S (length ps)))
           [Print ("Found " ++ Zstr (Z.of_nat (length (concat ps)))
                   ++ " public repositories.")],
      Ok (concat ps)))
  /\ (forall p1 p2,
        length p1 = 100%nat -> length p2 = 100%nat ->
        serves_page w (repos_url userName 1 100) p1 ->
        serves_page w (repos_url userName 2 100) p2 ->
        serves_page w (repos_url userName 3 100) [] ->
        (3 <= fuel)%nat ->
        getUserPublicRepos w fuel userName token =
        ([Print ("Fetching public repositories for user: " ++ userName ++ "...");
          HttpGet (repos_url userName 1 100) (api_headers token);
          HttpGet (repos_url userName 2 100) (api_headers token);
          HttpGet (repos_url userName 3 100) (api_headers token);
          Print "Found 200 public repositories."],
         Ok (app p1 p2))).
Proof.
  assert (Hgen : forall ps,
     serves_pages w userName 1 ps ->
     serves_page w (repos_url userName (1 + Z.of_nat (length ps)) 100) [] ->
     (length ps < fuel)%nat ->
     getUserPublicRepos w fuel userName token =
     (Print ("Fetching public repositories for user: " ++ userName ++ "...")
      :: app (page_gets userName (api_headers token) 1 (S (length ps)))
           [Print ("Found " ++ Zstr (Z.of_nat (length (concat ps)))
                   ++ " public repositories.")],
      Ok (concat ps))).
  { intros ps Hp He Hf. apply getUserPublicRepos_pages; assumption. }
  split; [exact Hgen|].
  intros p1 p2 H1 H2 S1 S2 S3 F.
  rewrite (Hgen [p1; p2]).
  - simpl. rewrite app_nil_r, length_app, H1, H2. reflexivity.
  - simpl. repeat split; try assumption.
    + intros ->; discriminate H1.
    + intros ->; discriminate H2.
  - exact S3.
  - simpl; lia.
Qed.

Lemma getUserPublicRepos_stops_at_first_empty_page_witness :
  getUserPublicRepos w_two_pages 3 "octocat" "tok" =
  ([Print ("Fetching public repositories for user: " ++ "octocat" ++ "...");
    HttpGet (repos_url "octocat" 1 100) (api_headers "tok");
    HttpGet (repos_url "octocat" 2 100) (api_headers "tok");
    HttpGet (repos_url "octocat" 3 100) (api_headers "tok");
    Print "Found 200 public repositories."],
   Ok (app (repo_page 0 100) (repo_page 100 100))).
Proof.
  apply (proj2 (getUserPublicRepos_stops_at_first_empty_page w_two_pages "octocat" "tok" 3)).
  - reflexivity.
  - reflexivity.
  - exists ""; reflexivity.
  - exists ""; reflexivity.
  - exists "[]"; reflexivity.
  - lia.
Defined.

(** C5 (counterexample): a failure raised by [requests.get] while listing is
    not caught: it leaves [getUserPublicRepos] and [main] as an exception. *)
Lemma repos_listing_network_failure_escapes :
  getUserPublicRepos w_network_down 10 "octocat" "tok" =
  ([Print "Fetching public repositories for user: octocat...";
    HttpGet (repos_url "octocat" 1 100) (api_headers "tok")],
   Raise (RequestException "Max retries exceeded with url"))
  /\ snd (main w_network_down 10) = Raise (RequestException "Max retries exceeded with url").
Proof. split; reflexivity. Qed.

(** C10: a token returned by [getGithubToken] is never empty; otherwise it
    raises the [ValueError] with the setup instructions, and nothing else. *)
Theorem getGithubToken_token_nonempty (w : World) :
  match snd (getGithubToken w) with
  | Ok token => token <> ""
  | Raise e => e = ValueError token_missing_msg
  | OutOfFuel => False
  end.
Proof.
  assert (Hs : match snd (token_from_settings w) with
               | Ok token => token <> ""
               | Raise e => e = ValueError token_missing_msg
               | OutOfFuel => False
               end).
  { unfold token_from_settings. rewrite snd_bind.
    destruct (token_from_config_result w) as [H|[t [Ht H]]]; rewrite H;
      simpl; [reflexivity|exact Ht]. }
  unfold getGithubToken.
  destruct (env_GITHUB_TOKEN w) as [token|]; [|exact Hs].
  destruct (truthy_str token) eqn:E; [|exact Hs].
  simpl. apply truthy_str_nonempty, E.
Qed.

Lemma snd_try_value_error_ok {A} (m : M A) (a : A) :
  snd m = Ok a -> snd (try_value_error m) = Ok (inl a).
Proof. destruct m as [o r]; simpl; intros ->; reflexivity. Qed.

(** C5 (amended): while listing, a non-success status stops the pagination
    and the records of the earlier pages are returned; a failure raised by
    [requests.get] (or a 200 body that is not JSON) is not caught by the
    lister, and [main] lets it escape as well. *)
Theorem getUserPublicRepos_listing_failures (w : World) (userName token : string)
    (fuel : nat) (ps : list (list Repo))
    (Hpages : serves_pages w userName 1 ps) (Hfuel : (length ps < fuel)%nat) :
  let url := repos_url userName (1 + Z.of_nat (length ps)) 100 in
  let fetching := Print ("Fetching public repositories for user: " ++ userName ++ "...") in
  (forall code body txt,
     repos_api w url = Reply (mkResponse code body txt) -> code <> 200 ->
     getUserPublicRepos w fuel userName token =
     (fetching
      :: app (page_gets userName (api_headers token) 1 (S (length ps)))
           [Print ("Error fetching repositories: " ++ Zstr code ++ " - " ++ txt);
            Print ("Found " ++ Zstr (Z.of_nat (length (concat ps)))
                   ++ " public repositories.")],
      Ok (concat ps)))
  /\ (forall msg,
        repos_api w url = ConnectionFailure msg ->
        getUserPublicRepos w fuel userName token =
        (fetching :: page_gets userName (api_headers token) 1 (S (length ps)),
         Raise (RequestException msg)))
  /\ (forall txt,
        repos_api w url = Reply (mkResponse 200 None txt) ->
        getUserPublicRepos w fuel userName token =
        (fetching :: page_gets userName (api_headers token) 1 (S (length ps)),
         Raise JSONDecodeError))
  /\ (forall e,
        snd (getGithubToken w) = Ok token ->
        snd (read_username w) = Ok userName -> truthy_str userName = true ->
        snd (getUserPublicRepos w fuel userName token) = Raise e ->
        snd (main w fuel) = Raise e).
Proof.
  intros url fetching; subst url fetching.
  destruct (getUserPublicRepos_after_pages w userName token fuel ps Hpages Hfuel)
    as [fuel' [_ Hunf]].
  split; [|split; [|split]].
  - intros code body txt Hr Hc. rewrite Hunf.
    rewrite (repos_loop_bad_status _ _ _ _ _ _ _ _ _ Hr Hc).
    rewrite page_gets_snoc. simpl. repeat rewrite <- app_assoc. reflexivity.
  - intros msg Hr. rewrite Hunf.
    rewrite (repos_loop_connection_failure _ _ _ _ _ _ _ Hr).
    rewrite page_gets_snoc. simpl. repeat rewrite <- app_assoc. try rewrite app_nil_r. reflexivity.
  - intros txt Hr. rewrite Hunf.
    rewrite (repos_loop_invalid_json _ _ _ _ _ _ _ Hr).
    rewrite page_gets_snoc. simpl. repeat rewrite <- app_assoc. try rewrite app_nil_r. reflexivity.
  - intros e Ht Hu Hne Hl. unfold main.
    rewrite snd_bind, (snd_try_value_error_ok _ _ Ht).
    rewrite snd_bind, Hu. rewrite Hne. simpl negb. cbv iota.
    rewrite snd_bind, Hl. reflexivity.
Qed.

Lemma getUserPublicRepos_listing_failures_witness :
  getUserPublicRepos w_network_down 10 "octocat" "tok" =
  (Print ("Fetching public repositories for user: " ++ "octocat" ++ "...")
   :: page_gets "octocat" (api_headers "tok") 1 1,
   Raise (RequestException "Max retries exceeded with url")).
Proof.
  apply (proj1 (proj2 (getUserPublicRepos_listing_failures w_network_down
                         "octocat" "tok" 10 [] I ltac:(simpl; lia)))).
  reflexivity.
Defined.

(** C6: when a repository's language request answers a non-success
    status, [getRepoLanguages] logs a warning with the status and the body
    and returns an empty map; in the loop of [main] that repository then
    changes neither the breakdown nor the count of repositories. *)
Theorem failed_language_fetch_contributes_nothing (w : World) (token : string)
    (repo : Repo) (code : Z) (body : option LanguageByteMap) (txt : string)
    (Hr : languages_api w (languages_url (owner_login repo) (repo_name repo))
          = Reply (mkResponse code body txt))
    (Hc : code <> 200) :
  getRepoLanguages w (owner_login repo) (repo_name repo) token =
  ([HttpGet (languages_url (owner_login repo) (repo_name repo)) (api_headers token);
    Print ("Warning: Could not fetch languages for " ++ owner_login repo ++ "/"
           ++ repo_name repo ++ ". " ++ "Status code: " ++ Zstr code ++ " - " ++ txt)],
   Ok [])
  /\ forall rs1 rs2 acc,
       snd (analyze w token (app rs1 (repo :: rs2)) acc)
       = snd (analyze w token (app rs1 rs2) acc).
Proof.
  assert (Hget : getRepoLanguages w (owner_login repo) (repo_name repo) token =
    ([HttpGet (languages_url (owner_login repo) (repo_name repo)) (api_headers token);
      Print ("Warning: Could not fetch languages for " ++ owner_login repo ++ "/"
             ++ repo_name repo ++ ". " ++ "Status code: " ++ Zstr code ++ " - " ++ txt)],
     Ok [])).
  { unfold getRepoLanguages, requests_get. rewrite Hr, bind_single_ok. simpl.
    apply Z.eqb_neq in Hc. rewrite Hc. reflexivity. }
  split; [exact Hget|].
  intros rs1 rs2. induction rs1 as [|r rs1 IH]; intros acc; cbn [app analyze].
  - rewrite !snd_bind. cbn [snd print]. rewrite Hget. cbn [snd].
    destruct acc; reflexivity.
  - rewrite !snd_bind. cbn [snd print].
    destruct (snd (getRepoLanguages w (owner_login r) (repo_name r) token)); [|reflexivity..].
    apply IH.
Qed.

Lemma failed_language_fetch_contributes_nothing_witness :
  snd (analyze w_lang_not_found "tok"
         (app [mkRepo "a" "octocat"] (mkRepo "b" "octocat" :: [mkRepo "c" "octocat"]))
         ([], 0))
  = snd (analyze w_lang_not_found "tok"
           (app [mkRepo "a" "octocat"] [mkRepo "c" "octocat"]) ([], 0)).
Proof.
  apply (proj2 (failed_language_fetch_contributes_nothing w_lang_not_found "tok"
                  (mkRepo "b" "octocat") 404 None "Not Found"
                  eq_refl ltac:(discriminate))).
Defined.

(** ** Sorting facts *)

Lemma insert_desc_perm x l : Permutation (insert_desc x l) (x :: l).
Proof.
  induction l as [|y ys IH]; simpl; [reflexivity|].
  destruct (snd x <? snd y).
  - rewrite IH. apply perm_swap.
  - reflexivity.
Qed.

Lemma sort_desc_perm l : Permutation (sort_desc l) l.
Proof.
  induction l as [|x xs IH]; simpl; [reflexivity|].
  rewrite insert_desc_perm. apply perm_skip, IH.
Qed.

Lemma insert_desc_hdrel a x l :
  HdRel count_ge a l -> count_ge a x -> HdRel count_ge a (insert_desc x l).
Proof.
  intros Hl Hx. destruct l as [|y ys]; simpl.
  - constructor; exact Hx.
  - destruct (snd x <? snd y); constructor; [inversion Hl; assumption|exact Hx].
Qed.

Lemma insert_desc_sorted x l :
  Sorted count_ge l -> Sorted count_ge (insert_desc x l).
Proof.
  induction l as [|y ys IH]; simpl; intros Hs.
  - repeat constructor.
  - inversion Hs as [|? ? Hys Hhd]; subst.
    destruct (Z.ltb_spec (snd x) (snd y)) as [Hlt|Hge].
    + constructor; [apply IH, Hys|].
      apply insert_desc_hdrel; [exact Hhd|unfold count_ge; lia].
    + constructor; [exact Hs|constructor; unfold count_ge; lia].
Qed.

Lemma sort_desc_sorted l : StronglySorted count_ge (sort_desc l).
Proof.
  apply Sorted_StronglySorted.
  - intros x y z; unfold count_ge; lia.
  - induction l as [|x xs IH]; simpl; [constructor|].
    apply insert_desc_sorted, IH.
Qed.

Lemma filter_insert_desc c x l :
  filter (fun e => snd e =? c) (insert_desc x l) = filter (fun e => snd e =? c) (x :: l).
Proof.
  induction l as [|y ys IH]; simpl; [reflexivity|].
  destruct (Z.ltb_spec (snd x) (snd y)) as [Hlt|Hge]; [|reflexivity].
  simpl. rewrite IH. simpl.
  destruct (Z.eqb_spec (snd y) c) as [Hy|Hy];
    destruct (Z.eqb_spec (snd x) c) as [Hx|Hx]; try lia; reflexivity.
Qed.

Lemma filter_sort_desc c l :
  filter (fun e => snd e =? c) (sort_desc l) = filter (fun e => snd e =? c) l.
Proof.
  induction l as [|x xs IH]; simpl; [reflexivity|].
  rewrite filter_insert_desc. simpl. rewrite IH. reflexivity.
Qed.

(** C7: the report lists the languages in an order that is a permutation of
    the breakdown, with byte counts never increasing (so languages tied on a
    count all come before any language with a smaller count), and languages
    with equal counts keep their order in the breakdown (first seen first),
    so the order is fixed by the input order; on [{A:50, B:200, C:200}] it
    is B, C, A. *)
Theorem report_order_descending_stable (bd : Breakdown) :
  Permutation (sort_desc bd) bd
  /\ StronglySorted (fun x y => snd y <= snd x) (sort_desc bd)
  /\ (forall c, filter (fun e => snd e =? c) (sort_desc bd)
                = filter (fun e => snd e =? c) bd)
  /\ sort_desc [("A", 50); ("B", 200); ("C", 200)]
     = [("B", 200); ("C", 200); ("A", 50)].
Proof.
  split; [apply sort_desc_perm|].
  split; [apply sort_desc_sorted|].
  split; [intros c; apply filter_sort_desc|reflexivity].
Qed.

(** C8: [sizeStr] prints a count below 1024 in bytes, below 1024^2 in KB,
    below 1024^3 in MB and otherwise in GB, the scaled value being the
    quotient of the count by the unit printed with two decimals; 1023,
    1024, 1048576 and 1073741824 print as ["1023 B"], ["1.00 KB"],
    ["1.00 MB"] and ["1.00 GB"]. *)
Theorem size_str_binary_units (b : Z) :
  (b < 1024 -> size_str b = ret (Zstr b ++ " B"))
  /\ (1024 <= b < 1024 ^ 2 ->
      size_str b = (x <- py_truediv b 1024 ;; ret (format_2f x ++ " KB")))
  /\ (1024 ^ 2 <= b < 1024 ^ 3 ->
      size_str b = (x <- py_truediv b (1024 ^ 2) ;; ret (format_2f x ++ " MB")))
  /\ (1024 ^ 3 <= b ->
      size_str b = (x <- py_truediv b (1024 ^ 3) ;; ret (format_2f x ++ " GB")))
  /\ size_str 1023 = ret "1023 B"
  /\ size_str 1024 = ret "1.00 KB"
  /\ size_str 1048576 = ret "1.00 MB"
  /\ size_str 1073741824 = ret "1.00 GB".
Proof.
  unfold size_str.
  split; [intros H; destruct (Z.ltb_spec b 1024); [reflexivity|lia]|].
  split; [intros H; destruct (Z.ltb_spec b 1024); [lia|];
          destruct (Z.ltb_spec b (1024 ^ 2)); [reflexivity|lia]|].
  split; [intros H; destruct (Z.ltb_spec b 1024); [lia|];
          destruct (Z.ltb_spec b (1024 ^ 2)); [lia|];
          destruct (Z.ltb_spec b (1024 ^ 3)); [reflexivity|lia]|].
  split; [intros H; destruct (Z.ltb_spec b 1024); [lia|];
          destruct (Z.ltb_spec b (1024 ^ 2)); [lia|];
          destruct (Z.ltb_spec b (1024 ^ 3)); [lia|reflexivity]|].
  repeat split; vm_compute; reflexivity.
Qed.

Lemma size_str_binary_units_witness :
  size_str 1536 = (x <- py_truediv 1536 1024 ;; ret (format_2f x ++ " KB"))
  /\ size_str 1536 = ret "1.50 KB".
Proof.
  split.
  - apply (proj1 (proj2 (size_str_binary_units 1536))). lia.
  - vm_compute. reflexivity.
Defined.

(** ** Report facts *)

Lemma py_truediv_silent a b : py_truediv a b = ([], snd (py_truediv a b)).
Proof.
  unfold py_truediv. destruct (b =? 0); [reflexivity|].
  destruct (SFdiv _ _ _ _); reflexivity.
Qed.

Lemma size_str_silent b : size_str b = ([], snd (size_str b)).
Proof.
  unfold size_str.
  destruct (b <? 1024); [reflexivity|].
  destruct (b <? 1024 ^ 2); [|destruct (b <? 1024 ^ 3)];
    unfold bind; rewrite py_truediv_silent;
    destruct (snd (py_truediv _ _)); reflexivity.
Qed.

Lemma py_truediv_terminates a b : snd (py_truediv a b) <> OutOfFuel.
Proof.
  unfold py_truediv. destruct (b =? 0); [discriminate|].
  destruct (SFdiv _ _ _ _); discriminate.
Qed.

Lemma size_str_terminates b : snd (size_str b) <> OutOfFuel.
Proof.
  unfold size_str.
  destruct (b <? 1024); [discriminate|].
  destruct (b <? 1024 ^ 2); [|destruct (b <? 1024 ^ 3)];
    rewrite snd_bind; destruct (snd (py_truediv _ _)) eqn:E;
    try discriminate; intros _; exact (py_truediv_terminates _ _ E).
Qed.

(** The text of one report line once its divisions have succeeded. *)
Lemma language_line_cases totalBytes item :
  (exists e, language_line totalBytes item = ([], Raise e))
  \/ (exists q sizeStr,
        snd (py_truediv (snd item) totalBytes) = Ok q
        /\ snd (size_str (snd item)) = Ok sizeStr
        /\ language_line totalBytes item =
           ([Print (fst item ++ ": " ++ format_2f (py_mul_int q 100) ++ "% ("
                    ++ sizeStr ++ ")")], Ok tt)).
Proof.
  destruct item as [lang b]. unfold language_line. simpl fst; simpl snd.
  rewrite py_truediv_silent.
  destruct (snd (py_truediv b totalBytes)) as [q|e|] eqn:E1.
  - rewrite bind_single_ok. simpl app.
    rewrite size_str_silent.
    destruct (snd (size_str b)) as [s|e|] eqn:E2.
    + right. exists q, s. split; [reflexivity|]. split; [reflexivity|].
      reflexivity.
    + left. exists e. reflexivity.
    + exfalso. exact (size_str_terminates b E2).
  - left. exists e. reflexivity.
  - exfalso. exact (py_truediv_terminates b totalBytes E1).
Qed.

Lemma mapM_language_lines totalBytes items :
  snd (mapM_ (language_line totalBytes) items) = Ok tt ->
  exists lines,
    fst (mapM_ (language_line totalBytes) items) = map Print lines
    /\ Forall2 (report_line_of totalBytes) items lines.
Proof.
  induction items as [|x xs IH]; simpl; intros Hok.
  - exists []. split; constructor.
  - destruct (language_line_cases totalBytes x) as [[e He]|[q [s [Hq [Hs Hl]]]]].
    + rewrite He in Hok. discriminate.
    + rewrite Hl, bind_single_ok in Hok. rewrite Hl, bind_single_ok. simpl in Hok.
      destruct (IH Hok) as [lines [Ho Hf]].
      exists ((fst x ++ ": " ++ format_2f (py_mul_int q 100) ++ "% (" ++ s ++ ")") :: lines).
      simpl. rewrite Ho. split; [reflexivity|].
      constructor; [|exact Hf].
      exists q, s. auto.
Qed.

(** C9 (counterexample): the summary header is not printed after the
    language lines: on a breakdown [{Python: 300, C: 700}] of two
    repositories the report prints the header first, so its output does not
    end with the language lines, the header and the separator. *)
Lemma report_header_not_after_languages :
  report "octocat" [("Python", 300); ("C", 700)] 2 =
  ([Print (header_line 2 "octocat"); Print "C: 70.00% (700 B)";
    Print "Python: 30.00% (300 B)"; Print separator_line], Ok tt)
  /\ ~ (exists before,
         fst (report "octocat" [("Python", 300); ("C", 700)] 2) =
         app before [Print "C: 70.00% (700 B)"; Print "Python: 30.00% (300 B)";
                     Print (header_line 2 "octocat"); Print separator_line]).
Proof.
  assert (Hr : report "octocat" [("Python", 300); ("C", 700)] 2 =
    ([Print (header_line 2 "octocat"); Print "C: 70.00% (700 B)";
      Print "Python: 30.00% (300 B)"; Print separator_line], Ok tt))
    by (vm_compute; reflexivity).
  split; [exact Hr|].
  rewrite Hr. intros [before H]. simpl fst in H.
  destruct before as [|e before].
  - simpl in H. injection H as Hh. vm_compute in Hh. discriminate Hh.
  - apply (f_equal (@length event)) in H.
    rewrite length_app in H. simpl in H. lia.
Qed.

(** C9 (amended): when the breakdown is not empty and its total is not 0,
    a report that completes prints the summary header first, then one line
    ["{language}: {percentage}% ({size} {unit})"] per language in sorted
    order, then the trailing separator line. *)
Theorem report_header_lines_separator (userName : string) (bd : Breakdown)
    (repoCount : Z)
    (Hne : bd <> []) (Htotal : sum_values bd <> 0)
    (Hok : snd (report userName bd repoCount) = Ok tt) :
  exists lines,
    fst (report userName bd repoCount) =
    Print (header_line repoCount userName)
      :: app (map Print lines) [Print separator_line]
    /\ Forall2 (report_line_of (sum_values bd)) (sort_desc bd) lines.
Proof.
  unfold report in *.
  destruct bd as [|x xs]; [contradiction|].
  apply Z.eqb_neq in Htotal.
  cbv zeta in *. rewrite Htotal in *.
  rewrite snd_bind in Hok. simpl snd in Hok at 1. cbv iota beta in Hok.
  rewrite snd_bind in Hok.
  destruct (mapM_ (language_line (sum_values (x :: xs))) (sort_desc (x :: xs)))
    as [o r] eqn:Em.
  destruct r as [[]|e|]; simpl in Hok; try discriminate.
  destruct (mapM_language_lines (sum_values (x :: xs)) (sort_desc (x :: xs)))
    as [lines [Ho Hf]]; [rewrite Em; reflexivity|].
  exists lines. split; [|exact Hf].
  rewrite Em in Ho. simpl in Ho. subst o.
  reflexivity.
Qed.

Lemma report_header_lines_separator_witness :
  exists lines,
    fst (report "octocat" [("Python", 300); ("C", 700)] 2) =
    Print (header_line 2 "octocat") :: app (map Print lines) [Print separator_line]
    /\ Forall2 (report_line_of (sum_values [("Python", 300); ("C", 700)]))
         (sort_desc [("Python", 300); ("C", 700)]) lines.
Proof.
  apply (report_header_lines_separator "octocat" [("Python", 300); ("C", 700)] 2).
  - discriminate.
  - vm_compute. discriminate.
  - vm_compute. reflexivity.
Defined.

(** * Further properties of the script *)

(** ** Traces *)

Lemma fst_bind {A B} (m : M A) (f : A -> M B) :
  fst (bind m f) =
  app (fst m) (match snd m with Ok a => fst (f a) | _ => [] end).
Proof.
  destruct m as [o r]; destruct r as [a|e|]; simpl; try (rewrite app_nil_r; reflexivity).
  destruct (f a); reflexivity.
Qed.

Lemma Forall_bind {A B} (P : event -> Prop) (m : M A) (f : A -> M B) :
  Forall P (fst m) -> (forall a, Forall P (fst (f a))) -> Forall P (fst (bind m f)).
Proof.
  intros Hm Hf. rewrite fst_bind. apply Forall_app. split; [exact Hm|].
  destruct (snd m); auto.
Qed.

Lemma gets_of_app t1 t2 : gets_of (app t1 t2) = app (gets_of t1) (gets_of t2).
Proof.
  induction t1 as [|e t1 IH]; simpl; [reflexivity|].
  destruct e; simpl; rewrite ?IH; reflexivity.
Qed.

Lemma no_gets_api_request token tr :
  Forall (fun e => is_get e = false) tr -> Forall (api_request token) tr.
Proof.
  apply Forall_impl. intros [] H; simpl; auto. discriminate H.
Qed.

Lemma Forall_mapM_ {A} (P : event -> Prop) (f : A -> M unit) l :
  (forall x, Forall P (fst (f x))) -> Forall P (fst (mapM_ f l)).
Proof.
  intros Hf. induction l as [|x xs IH]; simpl; [constructor|].
  apply Forall_bind; auto.
Qed.

(** ** Totals and counts of the aggregation *)

Lemma sum_values_acc bd s :
  fold_left (fun s '(_, b) => s + b) bd s = s + sum_values bd.
Proof.
  unfold sum_values. revert s.
  induction bd as [|[l b] rest IH]; intros s; simpl; [lia|].
  rewrite (IH (s + b)), (IH b). lia.
Qed.

Lemma sum_values_cons l b rest : sum_values ((l, b) :: rest) = b + sum_values rest.
Proof. unfold sum_values at 1. simpl. rewrite sum_values_acc. lia. Qed.

Lemma sum_values_add_count bd l n : sum_values (add_count bd l n) = sum_values bd + n.
Proof.
  induction bd as [|[l0 c] rest IH]; simpl.
  - reflexivity.
  - destruct (String.eqb l0 l); rewrite !sum_values_cons; [|rewrite IH]; lia.
Qed.

Lemma sum_values_add_entries es bd :
  sum_values (add_entries bd es) = sum_values bd + total_of es.
Proof.
  unfold add_entries. revert bd.
  induction es as [|[l b] rest IH]; intros bd; simpl; [lia|].
  fold (add_entries (add_count bd l b) rest). unfold add_entries in *.
  rewrite IH, sum_values_add_count. lia.
Qed.

Lemma snd_fold_agg_step maps bd cnt :
  snd (fold_left agg_step maps (bd, cnt))
  = cnt + Z.of_nat (length (filter nonempty_map maps)).
Proof.
  revert bd cnt; induction maps as [|m maps IH]; intros bd cnt; simpl; [lia|].
  destruct m as [|e es]; simpl; rewrite IH; lia.
Qed.

Lemma total_of_app a b : total_of (app a b) = total_of a + total_of b.
Proof. induction a as [|x a IH]; simpl; [reflexivity|]. rewrite IH. lia. Qed.

(** X1: the [totalBytes] of the report is the sum of every byte count of
    every fetched map, and the repository count is the number of non-empty
    fetched maps. *)
Theorem aggregate_total_and_count (maps : list LanguageByteMap) :
  sum_values (fst (aggregate maps)) = total_of (concat maps)
  /\ snd (aggregate maps) = Z.of_nat (length (filter nonempty_map maps)).
Proof.
  unfold aggregate. split.
  - rewrite fst_fold_agg_step, sum_values_add_entries. reflexivity.
  - rewrite snd_fold_agg_step. lia.
Qed.

(** ** The per-repository loop *)

Lemma getRepoLanguages_of w repo token m :
  language_map_of w repo = Some m ->
  snd (getRepoLanguages w (owner_login repo) (repo_name repo) token) = Ok m
  /\ gets_of (fst (getRepoLanguages w (owner_login repo) (repo_name repo) token))
     = [languages_url (owner_login repo) (repo_name repo)].
Proof.
  unfold language_map_of, getRepoLanguages, requests_get.
  destruct (languages_api w _) as [resp|msg]; [|discriminate].
  rewrite bind_single_ok.
  destruct (status_code resp =? 200); intros Hm.
  - rewrite Hm. simpl. auto.
  - injection Hm as <-. simpl. auto.
Qed.

(** X2: when no language request raises, the loop of [main] over the
    repositories issues exactly one language request per repository, in
    order, and returns the breakdown and count obtained by folding the
    fetched maps (an empty map for a non-success status). *)
Theorem analyze_fetches_each_repository (w : World) (token : string)
    (repos : list Repo) (maps : list LanguageByteMap) (acc : Breakdown * Z)
    (Hmaps : Forall2 (fun r m => language_map_of w r = Some m) repos maps) :
  snd (analyze w token repos acc) = Ok (fold_left agg_step maps acc)
  /\ gets_of (fst (analyze w token repos acc))
     = map (fun r => languages_url (owner_login r) (repo_name r)) repos.
Proof.
  revert acc. induction Hmaps as [|r m rs ms Hm Hrest IH]; intros acc.
  - simpl. auto.
  - cbn [analyze map fold_left].
    destruct (getRepoLanguages_of w r token m Hm) as [Hs Hg].
    split.
    + rewrite !snd_bind. simpl. rewrite ?snd_bind, Hs. apply IH.
    + rewrite !fst_bind. simpl. rewrite ?fst_bind, Hs, !gets_of_app, Hg.
      simpl. rewrite (proj2 (IH _)). reflexivity.
Qed.

Lemma analyze_fetches_each_repository_witness :
  snd (analyze w_lang_not_found "tok" [mkRepo "a" "octocat"; mkRepo "b" "octocat"] ([], 0))
  = Ok (fold_left agg_step [[("Python", 300); ("C", 200)]; []] ([], 0))
  /\ gets_of (fst (analyze w_lang_not_found "tok"
                     [mkRepo "a" "octocat"; mkRepo "b" "octocat"] ([], 0)))
     = map (fun r => languages_url (owner_login r) (repo_name r))
         [mkRepo "a" "octocat"; mkRepo "b" "octocat"].
Proof.
  apply analyze_fetches_each_repository.
  repeat constructor.
Defined.

(** ** What the parts of [main] emit *)

Lemma Forall_print P s : P (Print s) -> Forall P (fst (print s)).
Proof. intros H. simpl. constructor; [exact H|constructor]. Qed.

Lemma token_from_config_prints w :
  Forall (fun e => exists s, e = Print s) (fst (token_from_config w)).
Proof.
  unfold token_from_config.
  destruct (config_json w) as [| | |[p|] du]; cbn; repeat constructor; eauto.
  destruct (truthy_str p && path_exists w p); cbn; repeat constructor; eauto.
  destruct (files w p) as [[c|m]|]; cbn; repeat constructor; eauto.
  destruct (truthy_str (strip (universal_newlines c))); cbn; repeat constructor; eauto.
Qed.

Lemma getGithubToken_prints w :
  Forall (fun e => exists s, e = Print s) (fst (getGithubToken w)).
Proof.
  assert (Hs : Forall (fun e => exists s, e = Print s) (fst (token_from_settings w))).
  { unfold token_from_settings. apply Forall_bind; [apply token_from_config_prints|].
    intros [t|]; constructor. }
  unfold getGithubToken.
  destruct (env_GITHUB_TOKEN w) as [token|]; [|exact Hs].
  destruct (truthy_str token); [|exact Hs].
  simpl. repeat constructor. eauto.
Qed.

Lemma getGithubToken_outcomes w :
  (exists t, snd (getGithubToken w) = Ok t /\ t <> "")
  \/ snd (getGithubToken w) = Raise (ValueError token_missing_msg).
Proof.
  assert (Hs : (exists t, snd (token_from_settings w) = Ok t /\ t <> "")
               \/ snd (token_from_settings w) = Raise (ValueError token_missing_msg)).
  { unfold token_from_settings. rewrite snd_bind.
    destruct (token_from_config_result w) as [H|[t [Ht H]]]; rewrite H; simpl; eauto. }
  unfold getGithubToken.
  destruct (env_GITHUB_TOKEN w) as [token|]; [|exact Hs].
  destruct (truthy_str token) eqn:E; [|exact Hs].
  left. exists token. split; [reflexivity|apply truthy_str_nonempty, E].
Qed.

Lemma prints_no_gets tr :
  Forall (fun e => exists s, e = Print s) tr -> Forall (fun e => is_get e = false) tr.
Proof. apply Forall_impl. intros e [s ->]. reflexivity. Qed.

(** X3: when no token can be found, [main] prints the error and the setup
    instructions after the resolver's own messages and returns normally:
    it shows no prompt and sends no request. *)
Theorem main_without_token (w : World) (fuel : nat) (e : exn)
    (Hraise : snd (getGithubToken w) = Raise e) :
  main w fuel =
  (app (fst (getGithubToken w)) (map Print (token_missing_msg :: pat_instructions)), Ok tt)
  /\ Forall (fun ev => exists s, ev = Print s) (fst (main w fuel)).
Proof.
  assert (He : e = ValueError token_missing_msg).
  { destruct (getGithubToken_outcomes w) as [[t [Ht _]]|H]; rewrite Hraise in *;
      [discriminate|injection H as ->; reflexivity]. }
  subst e.
  assert (Hm : main w fuel =
    (app (fst (getGithubToken w)) (map Print (token_missing_msg :: pat_instructions)), Ok tt)).
  { unfold main.
    destruct (getGithubToken w) as [o r]. simpl in Hraise. subst r.
    reflexivity. }
  split; [exact Hm|].
  rewrite Hm. cbn [fst]. apply Forall_app. split; [apply getGithubToken_prints|].
  apply Forall_map, Forall_forall. eauto.
Qed.

Lemma main_without_token_witness :
  main w_no_token 5 =
  (app (fst (getGithubToken w_no_token)) (map Print (token_missing_msg :: pat_instructions)),
   Ok tt)
  /\ Forall (fun ev => exists s, ev = Print s) (fst (main w_no_token 5)).
Proof.
  apply (main_without_token w_no_token 5 (ValueError token_missing_msg)).
  reflexivity.
Defined.

(** ** Helpers for the runs of [main] *)

Lemma analyze_ok w token repos maps acc :
  Forall2 (fun r m => language_map_of w r = Some m) repos maps ->
  snd (analyze w token repos acc) = Ok (fold_left agg_step maps acc).
Proof.
  intros Hmaps. revert acc.
  induction Hmaps as [|r m rs ms Hm Hrest IH]; intros acc; [reflexivity|].
  cbn [analyze fold_left].
  destruct (getRepoLanguages_of w r token m Hm) as [Hs _].
  rewrite !snd_bind. simpl. rewrite ?snd_bind, Hs. apply IH.
Qed.

Lemma add_count_nonempty bd lang n : add_count bd lang n <> [].
Proof. destruct bd as [|[l c] rest]; simpl; [|destruct (String.eqb l lang)]; discriminate. Qed.

Lemma add_languages_nonempty bd m : bd <> [] -> add_languages bd m <> [].
Proof.
  unfold add_languages. revert bd.
  induction m as [|[l b] m IH]; intros bd Hbd; simpl; [exact Hbd|].
  apply IH, add_count_nonempty.
Qed.

Lemma add_languages_cons_nonempty bd e m : add_languages bd (e :: m) <> [].
Proof.
  destruct e as [l b]. unfold add_languages. simpl.
  apply add_languages_nonempty, add_count_nonempty.
Qed.

Lemma fold_agg_step_keeps_nonempty maps acc :
  fst acc <> [] -> fst (fold_left agg_step maps acc) <> [].
Proof.
  revert acc. induction maps as [|m maps IH]; intros [bd c] H; cbn [fold_left]; [exact H|].
  apply IH. destruct m as [|e m]; [exact H|]. apply add_languages_nonempty, H.
Qed.

Lemma aggregate_all_empty maps :
  Forall (fun m => m = []) maps -> aggregate maps = ([], 0).
Proof.
  unfold aggregate. induction 1 as [|m maps Hm _ IH]; [reflexivity|].
  subst m. exact IH.
Qed.

Lemma aggregate_some_nonempty maps :
  Exists (fun m => m <> []) maps -> fst (aggregate maps) <> [].
Proof.
  intros H. unfold aggregate. generalize (@nil (string * Z) , 0) as acc.
  induction H as [m maps Hm|m maps _ IH]; intros [bd c]; cbn [fold_left].
  - destruct m as [|e m]; [congruence|].
    apply fold_agg_step_keeps_nonempty. apply add_languages_cons_nonempty.
  - apply IH.
Qed.

Lemma aggregate_total maps : sum_values (fst (aggregate maps)) = total_of (concat maps).
Proof. unfold aggregate. rewrite fst_fold_agg_step, sum_values_add_entries. reflexivity. Qed.

Lemma aggregate_count maps :
  snd (aggregate maps) = Z.of_nat (length (filter nonempty_map maps)).
Proof. unfold aggregate. rewrite snd_fold_agg_step. lia. Qed.

Lemma read_username_no_gets w : Forall (fun e => is_get e = false) (fst (read_username w)).
Proof.
  unfold read_username, getDefaultUsername, input.
  destruct (config_json w) as [| | |tp [d|]]; cbn -[strip truthy_str];
    try (repeat constructor; fail).
  destruct (truthy_str d); cbn -[strip truthy_str]; repeat constructor.
Qed.

Lemma no_gets_gets_of tr : Forall (fun e => is_get e = false) tr -> gets_of tr = [].
Proof. induction 1 as [|[] tr He _ IH]; simpl; auto. discriminate He. Qed.

(** X4: the username [main] works with is the stripped input line when it
    is non-empty, and otherwise the configured [defaultUsername] (the empty
    string when the config has none); exactly one line is read and no
    request is sent. *)
Theorem read_username_result (w : World) :
  snd (read_username w)
  = Ok (if truthy_str (strip (stdin_line w)) then strip (stdin_line w)
        else match config_json w with
             | ConfigObject _ (Some d) => d
             | _ => ""
             end)
  /\ length (filter (fun e => match e with Prompt _ => true | _ => false end)
                    (fst (read_username w))) = 1%nat
  /\ Forall (fun e => is_get e = false) (fst (read_username w)).
Proof.
  assert (Hs : forall s, (if truthy_str s then s else "") = s).
  { intros s. unfold truthy_str. destruct (String.eqb_spec s ""); simpl; congruence. }
  unfold read_username, getDefaultUsername, input.
  destruct (config_json w) as [|m|m|tp [d|]]; cbn -[strip truthy_str]; rewrite ?Hs.
  all: try (repeat split; repeat constructor; fail).
  destruct (truthy_str d) eqn:Ed; cbn -[strip truthy_str].
  - repeat split; repeat constructor.
  - unfold truthy_str in Ed. apply negb_false_iff, String.eqb_eq in Ed. subst d.
    rewrite Hs. repeat split; repeat constructor.
Qed.

(** X5: when the resolved username is empty, [main] prints
    ["Username cannot be empty. Exiting."] right after the token and
    username steps and returns normally without sending any request. *)
Theorem main_empty_username (w : World) (fuel : nat) (token : string)
    (Htoken : snd (getGithubToken w) = Ok token)
    (Huser : snd (read_username w) = Ok "") :
  main w fuel =
  (app (fst (getGithubToken w))
       (app (fst (read_username w)) [Print "Username cannot be empty. Exiting."]), Ok tt)
  /\ gets_of (fst (main w fuel)) = [].
Proof.
  assert (Hm : main w fuel =
    (app (fst (getGithubToken w))
         (app (fst (read_username w)) [Print "Username cannot be empty. Exiting."]), Ok tt)).
  { unfold main.
    destruct (getGithubToken w) as [o1 r1]. cbn [snd] in Htoken. subst r1.
    cbn [try_value_error]. rewrite bind_single_ok.
    destruct (read_username w) as [o2 r2]. cbn [snd] in Huser. subst r2.
    cbn [fst snd]. rewrite bind_single_ok. reflexivity. }
  split; [exact Hm|].
  rewrite Hm. cbn [fst]. rewrite !gets_of_app.
  pose proof (prints_no_gets _ (getGithubToken_prints w)) as H1.
  pose proof (read_username_no_gets w) as H2.
  rewrite (no_gets_gets_of _ H1), (no_gets_gets_of _ H2). reflexivity.
Qed.

Lemma main_empty_username_witness :
  snd (getGithubToken w_blank_username) = Ok "tok"
  /\ snd (read_username w_blank_username) = Ok ""
  /\ main w_blank_username 3 =
     (app (fst (getGithubToken w_blank_username))
          (app (fst (read_username w_blank_username))
               [Print "Username cannot be empty. Exiting."]), Ok tt)
     /\ gets_of (fst (main w_blank_username 3)) = [].
Proof.
  assert (H1 : snd (getGithubToken w_blank_username) = Ok "tok") by reflexivity.
  assert (H2 : snd (read_username w_blank_username) = Ok "") by reflexivity.
  split; [exact H1|]. split; [exact H2|].
  exact (main_empty_username w_blank_username 3 "tok" H1 H2).
Defined.

Lemma truthy_str_of_nonempty s : s <> "" -> truthy_str s = true.
Proof. intros H. unfold truthy_str. destruct (String.eqb_spec s ""); [congruence|reflexivity]. Qed.

Lemma main_after_lister w fuel token u repos :
  snd (getGithubToken w) = Ok token ->
  snd (read_username w) = Ok u -> u <> "" ->
  snd (getUserPublicRepos w fuel u token) = Ok repos ->
  main w fuel =
  (app (fst (getGithubToken w)) (app (fst (read_username w))
     (app (fst (getUserPublicRepos w fuel u token))
        (fst (match repos with
              | [] => print ("No public repositories found for user '" ++ u
                             ++ "' or an error occurred.")
              | _ :: _ =>
                  print (nl ++ "Analyzing languages for each repository...") ;;;
                  '(totalLanguageBreakdown, repoCount) <- analyze w token repos ([], 0) ;;
                  report u totalLanguageBreakdown repoCount
              end)))),
   snd (match repos with
        | [] => print ("No public repositories found for user '" ++ u
                       ++ "' or an error occurred.")
        | _ :: _ =>
            print (nl ++ "Analyzing languages for each repository...") ;;;
            '(totalLanguageBreakdown, repoCount) <- analyze w token repos ([], 0) ;;
            report u totalLanguageBreakdown repoCount
        end)).
Proof.
  intros Htoken Huser Hu Hrepos. unfold main.
  destruct (getGithubToken w) as [o1 r1]. cbn [snd] in Htoken. subst r1.
  cbn [try_value_error]. rewrite bind_single_ok.
  destruct (read_username w) as [o2 r2]. cbn [snd] in Huser. subst r2.
  cbn [fst snd]. rewrite bind_single_ok.
  rewrite (truthy_str_of_nonempty u Hu). cbn [negb].
  destruct (getUserPublicRepos w fuel u token) as [o3 r3]. cbn [snd] in Hrepos. subst r3.
  rewrite bind_single_ok. cbn [fst snd]. rewrite !app_assoc. reflexivity.
Qed.

Lemma analyze_gets w token repos maps acc :
  Forall2 (fun r m => language_map_of w r = Some m) repos maps ->
  gets_of (fst (analyze w token repos acc))
  = map (fun r => languages_url (owner_login r) (repo_name r)) repos.
Proof.
  intros Hmaps. revert acc.
  induction Hmaps as [|r m rs ms Hm Hrest IH]; intros acc; [reflexivity|].
  cbn [analyze map].
  destruct (getRepoLanguages_of w r token m Hm) as [Hs Hg].
  rewrite !fst_bind. simpl. rewrite ?fst_bind, Hs, !gets_of_app, Hg.
  simpl. rewrite IH. reflexivity.
Qed.

Lemma report_no_gets u bd c : Forall (fun e => is_get e = false) (fst (report u bd c)).
Proof.
  unfold report. destruct bd as [|e bd]; [apply Forall_print; reflexivity|].
  apply Forall_bind; [apply Forall_print; reflexivity|]. intros _. cbv zeta.
  destruct (sum_values (e :: bd) =? 0); [apply Forall_print; reflexivity|].
  apply Forall_bind; [|intros _; apply Forall_print; reflexivity].
  apply Forall_mapM_. intros [l b]. unfold language_line.
  apply Forall_bind; [rewrite py_truediv_silent; constructor|]. intros q.
  apply Forall_bind; [rewrite size_str_silent; constructor|]. intros s.
  apply Forall_print. reflexivity.
Qed.

Lemma main_pipeline w fuel token u repos maps :
  snd (getGithubToken w) = Ok token ->
  snd (read_username w) = Ok u -> u <> "" ->
  snd (getUserPublicRepos w fuel u token) = Ok repos -> repos <> [] ->
  Forall2 (fun r m => language_map_of w r = Some m) repos maps ->
  main w fuel =
  (app (fst (getGithubToken w)) (app (fst (read_username w))
     (app (fst (getUserPublicRepos w fuel u token))
        (Print (nl ++ "Analyzing languages for each repository...")
         :: app (fst (analyze w token repos ([], 0)))
                (fst (report u (fst (aggregate maps)) (snd (aggregate maps))))))),
   snd (report u (fst (aggregate maps)) (snd (aggregate maps)))).
Proof.
  intros Htoken Huser Hu Hrepos Hne Hmaps.
  rewrite (main_after_lister w fuel token u repos Htoken Huser Hu Hrepos).
  destruct repos as [|r rs]; [congruence|].
  pose proof (analyze_ok w token (r :: rs) maps ([], 0) Hmaps) as Ha.
  unfold print. rewrite bind_single_ok.
  destruct (analyze w token (r :: rs) ([], 0)) as [o4 r4]. cbn [snd] in Ha. subst r4.
  fold (aggregate maps). destruct (aggregate maps) as [bd c].
  rewrite bind_single_ok. reflexivity.
Qed.

(** X6: when the lister ends with no repositories, [main] prints that none
    were found for the user and returns normally: after the listing requests
    it sends no further request. *)
Theorem main_no_repositories (w : World) (fuel : nat) (token u : string)
    (Htoken : snd (getGithubToken w) = Ok token)
    (Huser : snd (read_username w) = Ok u) (Hu : u <> "")
    (Hrepos : snd (getUserPublicRepos w fuel u token) = Ok []) :
  main w fuel =
  (app (fst (getGithubToken w)) (app (fst (read_username w))
     (app (fst (getUserPublicRepos w fuel u token))
        [Print ("No public repositories found for user '" ++ u
                ++ "' or an error occurred.")])), Ok tt)
  /\ gets_of (fst (main w fuel)) = gets_of (fst (getUserPublicRepos w fuel u token)).
Proof.
  rewrite (main_after_lister w fuel token u [] Htoken Huser Hu Hrepos).
  split; [reflexivity|]. cbn [fst]. rewrite !gets_of_app.
  rewrite (no_gets_gets_of _ (prints_no_gets _ (getGithubToken_prints w))).
  rewrite (no_gets_gets_of _ (read_username_no_gets w)).
  simpl. rewrite app_nil_r. reflexivity.
Qed.

Lemma main_no_repositories_witness :
  main w_lang_not_found 3 =
  (app (fst (getGithubToken w_lang_not_found)) (app (fst (read_username w_lang_not_found))
     (app (fst (getUserPublicRepos w_lang_not_found 3 "octocat" "tok"))
        [Print ("No public repositories found for user '" ++ "octocat"
                ++ "' or an error occurred.")])), Ok tt)
  /\ gets_of (fst (main w_lang_not_found 3))
     = gets_of (fst (getUserPublicRepos w_lang_not_found 3 "octocat" "tok")).
Proof.
  apply (main_no_repositories w_lang_not_found 3 "tok" "octocat");
    [reflexivity | reflexivity | discriminate | vm_compute; reflexivity].
Defined.

(** X7: once the token, a non-empty username and a non-empty list of
    repositories are in hand and no language request raises, [main] prints
    the analysing notice, fetches the languages of each repository in list
    order, and then reports on the breakdown and count aggregated from the
    fetched maps; the only requests are the listing pages and one
    languages request per repository. *)
Theorem main_reports_aggregate (w : World) (fuel : nat) (token u : string)
    (repos : list Repo) (maps : list LanguageByteMap)
    (Htoken : snd (getGithubToken w) = Ok token)
    (Huser : snd (read_username w) = Ok u) (Hu : u <> "")
    (Hrepos : snd (getUserPublicRepos w fuel u token) = Ok repos) (Hne : repos <> [])
    (Hmaps : Forall2 (fun r m => language_map_of w r = Some m) repos maps) :
  main w fuel =
  (app (fst (getGithubToken w)) (app (fst (read_username w))
     (app (fst (getUserPublicRepos w fuel u token))
        (Print (nl ++ "Analyzing languages for each repository...")
         :: app (fst (analyze w token repos ([], 0)))
                (fst (report u (fst (aggregate maps)) (snd (aggregate maps))))))),
   snd (report u (fst (aggregate maps)) (snd (aggregate maps))))
  /\ gets_of (fst (main w fuel))
     = app (gets_of (fst (getUserPublicRepos w fuel u token)))
           (map (fun r => languages_url (owner_login r) (repo_name r)) repos).
Proof.
  pose proof (main_pipeline w fuel token u repos maps Htoken Huser Hu Hrepos Hne Hmaps) as Hm.
  split; [exact Hm|]. rewrite Hm. cbn [fst]. rewrite !gets_of_app.
  rewrite (no_gets_gets_of _ (prints_no_gets _ (getGithubToken_prints w))).
  rewrite (no_gets_gets_of _ (read_username_no_gets w)).
  cbn [gets_of app]. rewrite gets_of_app, (analyze_gets w token repos maps _ Hmaps).
  rewrite (no_gets_gets_of _ (report_no_gets _ _ _)), app_nil_r. reflexivity.
Qed.

Lemma main_reports_aggregate_witness :
  main w_ab_python 3 =
  (app (fst (getGithubToken w_ab_python)) (app (fst (read_username w_ab_python))
     (app (fst (getUserPublicRepos w_ab_python 3 "octocat" "tok"))
        (Print (nl ++ "Analyzing languages for each repository...")
         :: app (fst (analyze w_ab_python "tok" repos_ab ([], 0)))
                (fst (report "octocat"
                        (fst (aggregate [[("Python", 300); ("C", 200)]; []]))
                        (snd (aggregate [[("Python", 300); ("C", 200)]; []]))))))),
   snd (report "octocat"
          (fst (aggregate [[("Python", 300); ("C", 200)]; []]))
          (snd (aggregate [[("Python", 300); ("C", 200)]; []]))))
  /\ gets_of (fst (main w_ab_python 3))
     = app (gets_of (fst (getUserPublicRepos w_ab_python 3 "octocat" "tok")))
           (map (fun r => languages_url (owner_login r) (repo_name r)) repos_ab).
Proof.
  apply (main_reports_aggregate w_ab_python 3 "tok" "octocat" repos_ab
           [[("Python", 300); ("C", 200)]; []]);
    [reflexivity | reflexivity | discriminate | vm_compute; reflexivity | discriminate
    | repeat constructor].
Defined.

(** X8: when every fetched language map is empty (in particular when every
    languages request fails with a non-200 status), [main] ends with
    ["No language data found for any of the public repositories."] right
    after the per-repository messages and prints no report header. *)
Theorem main_no_language_data (w : World) (fuel : nat) (token u : string)
    (repos : list Repo) (maps : list LanguageByteMap)
    (Htoken : snd (getGithubToken w) = Ok token)
    (Huser : snd (read_username w) = Ok u) (Hu : u <> "")
    (Hrepos : snd (getUserPublicRepos w fuel u token) = Ok repos) (Hne : repos <> [])
    (Hmaps : Forall2 (fun r m => language_map_of w r = Some m) repos maps)
    (Hempty : Forall (fun m => m = []) maps) :
  main w fuel =
  (app (fst (getGithubToken w)) (app (fst (read_username w))
     (app (fst (getUserPublicRepos w fuel u token))
        (Print (nl ++ "Analyzing languages for each repository...")
         :: app (fst (analyze w token repos ([], 0)))
                [Print "No language data found for any of the public repositories."]))),
   Ok tt).
Proof.
  rewrite (main_pipeline w fuel token u repos maps Htoken Huser Hu Hrepos Hne Hmaps).
  rewrite (aggregate_all_empty maps Hempty). reflexivity.
Qed.

Lemma main_no_language_data_witness :
  main w_ab_no_data 3 =
  (app (fst (getGithubToken w_ab_no_data)) (app (fst (read_username w_ab_no_data))
     (app (fst (getUserPublicRepos w_ab_no_data 3 "octocat" "tok"))
        (Print (nl ++ "Analyzing languages for each repository...")
         :: app (fst (analyze w_ab_no_data "tok" repos_ab ([], 0)))
                [Print "No language data found for any of the public repositories."]))),
   Ok tt).
Proof.
  apply (main_no_language_data w_ab_no_data 3 "tok" "octocat" repos_ab [[]; []]);
    [reflexivity | reflexivity | discriminate | vm_compute; reflexivity | discriminate
    | repeat constructor | repeat constructor].
Defined.

(** X9: when some fetched map is non-empty but all byte counts add up to 0,
    [main] prints the report header, with the number of non-empty maps as
    the repository count, and then ["No code bytes found across all
    repositories."], and stops there without dividing by the total. *)
Theorem main_zero_total_bytes (w : World) (fuel : nat) (token u : string)
    (repos : list Repo) (maps : list LanguageByteMap)
    (Htoken : snd (getGithubToken w) = Ok token)
    (Huser : snd (read_username w) = Ok u) (Hu : u <> "")
    (Hrepos : snd (getUserPublicRepos w fuel u token) = Ok repos) (Hne : repos <> [])
    (Hmaps : Forall2 (fun r m => language_map_of w r = Some m) repos maps)
    (Hsome : Exists (fun m => m <> []) maps)
    (Hzero : total_of (concat maps) = 0) :
  main w fuel =
  (app (fst (getGithubToken w)) (app (fst (read_username w))
     (app (fst (getUserPublicRepos w fuel u token))
        (Print (nl ++ "Analyzing languages for each repository...")
         :: app (fst (analyze w token repos ([], 0)))
                [Print (header_line (Z.of_nat (length (filter nonempty_map maps))) u);
                 Print "No code bytes found across all repositories."]))),
   Ok tt).
Proof.
  rewrite (main_pipeline w fuel token u repos maps Htoken Huser Hu Hrepos Hne Hmaps).
  pose proof (aggregate_some_nonempty maps Hsome) as Hbd.
  pose proof (aggregate_total maps) as Ht. pose proof (aggregate_count maps) as Hc.
  destruct (aggregate maps) as [bd c]. cbn [fst snd] in *. subst c.
  destruct bd as [|e bd]; [congruence|].
  unfold report. cbv zeta. rewrite Ht, Hzero. reflexivity.
Qed.

Lemma main_zero_total_bytes_witness :
  main w_ab_zero_bytes 3 =
  (app (fst (getGithubToken w_ab_zero_bytes)) (app (fst (read_username w_ab_zero_bytes))
     (app (fst (getUserPublicRepos w_ab_zero_bytes 3 "octocat" "tok"))
        (Print (nl ++ "Analyzing languages for each repository...")
         :: app (fst (analyze w_ab_zero_bytes "tok" repos_ab ([], 0)))
                [Print (header_line
                   (Z.of_nat (length (filter nonempty_map [[("Text", 0)]; []]))) "octocat");
                 Print "No code bytes found across all repositories."]))),
   Ok tt).
Proof.
  apply (main_zero_total_bytes w_ab_zero_bytes 3 "tok" "octocat" repos_ab [[("Text", 0)]; []]);
    [reflexivity | reflexivity | discriminate | vm_compute; reflexivity | discriminate
    | repeat constructor | apply Exists_cons_hd; discriminate | reflexivity].
Defined.

(** ** The requests [main] sends *)

Lemma requests_get_api {A} token (api : string -> reply A) rest :
  Forall (api_request token)
    (fst (requests_get api ("https://api.github.com/" ++ rest) (api_headers token))).
Proof.
  unfold requests_get. destruct (api _); repeat constructor; eauto.
Qed.

Lemma repos_loop_api w u token fuel pageNum perPage repos :
  Forall (api_request token) (fst (repos_loop w u (api_headers token) fuel pageNum perPage repos)).
Proof.
  revert pageNum repos. induction fuel as [|fuel IH]; intros pageNum repos; [constructor|].
  cbn [repos_loop]. apply Forall_bind.
  - apply (requests_get_api token (repos_api w) ("users/" ++ u ++ "/repos?type=public&page="
      ++ Zstr pageNum ++ "&per_page=" ++ Zstr perPage)).
  - intros resp. destruct (status_code resp =? 200).
    + apply Forall_bind; [destruct (json resp); constructor|].
      intros [|r rs]; [constructor|apply IH].
    + apply Forall_bind; [apply Forall_print; exact I|intros _; constructor].
Qed.

Lemma getUserPublicRepos_api w fuel u token :
  Forall (api_request token) (fst (getUserPublicRepos w fuel u token)).
Proof.
  unfold getUserPublicRepos.
  apply Forall_bind; [apply Forall_print; exact I|intros _].
  apply Forall_bind; [apply repos_loop_api|intros repos].
  apply Forall_bind; [apply Forall_print; exact I|intros _; constructor].
Qed.

Lemma analyze_api w token repos acc :
  Forall (api_request token) (fst (analyze w token repos acc)).
Proof.
  revert acc. induction repos as [|r rs IH]; intros acc; [constructor|].
  cbn [analyze].
  apply Forall_bind; [apply Forall_print; exact I|intros _].
  apply Forall_bind; [|intros m; apply IH].
  unfold getRepoLanguages.
  apply Forall_bind.
  - apply (requests_get_api token (languages_api w)
             ("repos/" ++ owner_login r ++ "/" ++ repo_name r ++ "/languages")).
  - intros resp. destruct (status_code resp =? 200).
    + destruct (json resp); constructor.
    + apply Forall_bind; [apply Forall_print; exact I|intros _; constructor].
Qed.

(** X10: once [getGithubToken] has produced a token, every request [main]
    sends goes to [https://api.github.com/] and carries the three API
    headers with [Bearer <token>] authorisation. *)
Theorem main_requests_use_token (w : World) (fuel : nat) (token : string)
    (Htoken : snd (getGithubToken w) = Ok token) :
  Forall (api_request token) (fst (main w fuel)).
Proof.
  unfold main. rewrite fst_bind.
  assert (Htv : snd (try_value_error (getGithubToken w)) = Ok (inl token)
                /\ fst (try_value_error (getGithubToken w)) = fst (getGithubToken w)).
  { destruct (getGithubToken w) as [o r]. cbn [snd] in Htoken. subst r. split; reflexivity. }
  destruct Htv as [Hs Hf]. rewrite Hs, Hf.
  apply Forall_app. split.
  - apply no_gets_api_request, prints_no_gets, getGithubToken_prints.
  - apply Forall_bind; [apply no_gets_api_request, read_username_no_gets|intros u].
    destruct (negb (truthy_str u)); [apply Forall_print; exact I|].
    apply Forall_bind; [apply getUserPublicRepos_api|intros [|r rs]].
    + apply Forall_print. exact I.
    + apply Forall_bind; [apply Forall_print; exact I|intros _].
      apply Forall_bind; [apply analyze_api|intros [bd c]].
      apply no_gets_api_request, report_no_gets.
Qed.

Lemma main_requests_use_token_witness :
  Forall (api_request "tok") (fst (main w_ab_python 3)).
Proof.
  apply (main_requests_use_token w_ab_python 3 "tok"). reflexivity.
Defined.

(** ** The order of the breakdown *)

Lemma keys_add_count bd l n :
  map fst (add_count bd l n)
  = if existsb (String.eqb l) (map fst bd) then map fst bd else app (map fst bd) [l].
Proof.
  induction bd as [|[l0 c0] rest IH]; [reflexivity|].
  cbn [add_count map existsb fst].
  destruct (String.eqb_spec l0 l) as [->|Hne].
  - rewrite String.eqb_refl. reflexivity.
  - assert (E : String.eqb l l0 = false) by (apply String.eqb_neq; congruence).
    rewrite E. cbn [orb map fst]. rewrite IH.
    destruct (existsb (String.eqb l) (map fst rest)); reflexivity.
Qed.

Lemma keys_add_entries entries bd :
  map fst (add_entries bd entries) = app (map fst bd) (new_keys (map fst bd) entries).
Proof.
  unfold add_entries. revert bd.
  induction entries as [|[k b] rest IH]; intros bd; cbn [fold_left new_keys].
  - rewrite app_nil_r. reflexivity.
  - rewrite IH, keys_add_count.
    destruct (existsb (String.eqb k) (map fst bd)); [reflexivity|].
    rewrite <- app_assoc. reflexivity.
Qed.

(** X11: the breakdown [main] reports lists every language that occurs in
    a fetched map exactly once, in the order in which the languages first
    occur across the maps (the order a dict keeps); this is the order the
    report keeps among languages with equal byte counts. *)
Theorem aggregate_keys_first_occurrence (maps : list LanguageByteMap) :
  map fst (fst (aggregate maps)) = new_keys [] (concat maps)
  /\ NoDup (map fst (fst (aggregate maps))).
Proof.
  unfold aggregate. rewrite fst_fold_agg_step. split.
  - rewrite keys_add_entries. reflexivity.
  - apply nodup_add_entries. constructor.
Qed.

(** ** How the token lookup fails *)

(** X12: without a usable [GITHUB_TOKEN] (unset or empty), the token lookup
    raises the "not found" [ValueError] in each failing case of the
    settings, after printing: nothing when there is no [config.json] or the
    token file at a non-empty path holds only whitespace; the JSON error when [config.json] is
    invalid; the read error when it cannot be read; the "Token path not
    found" line with [None] when the key is missing and with the path when
    the file does not exist; the read error when the token file at a
    non-empty path cannot be read. *)
Theorem getGithubToken_settings_failures (w : World)
    (Henv : match env_GITHUB_TOKEN w with Some t => t = "" | None => True end) :
  (config_json w = ConfigAbsent -> token_lookup_fails w [])
  /\ (forall msg, config_json w = ConfigInvalidJson msg ->
        token_lookup_fails w
          [Print "Error reading 'config.json'. Make sure it's valid JSON."])
  /\ (forall msg, config_json w = ConfigReadError msg ->
        token_lookup_fails w
          [Print ("An error occurred while reading 'config.json': " ++ msg)])
  /\ (forall du, config_json w = ConfigObject None du ->
        token_lookup_fails w
          [Print "Token path not found in config or file does not exist: None"])
  /\ (forall p du, config_json w = ConfigObject (Some p) du -> files w p = None ->
        token_lookup_fails w
          [Print ("Token path not found in config or file does not exist: " ++ p)])
  /\ (forall p du c, config_json w = ConfigObject (Some p) du -> p <> "" ->
        files w p = Some (FileText c) -> strip (universal_newlines c) = "" ->
        token_lookup_fails w [])
  /\ (forall p du msg, config_json w = ConfigObject (Some p) du -> p <> "" ->
        files w p = Some (FileUnreadable msg) ->
        token_lookup_fails w [Print ("Error reading token file '" ++ p ++ "': " ++ msg)]).
Proof.
  assert (Hg : getGithubToken w = token_from_settings w).
  { unfold getGithubToken. destruct (env_GITHUB_TOKEN w) as [t|]; [subst t|]; reflexivity. }
  unfold token_lookup_fails. rewrite Hg. unfold token_from_settings, token_from_config.
  repeat split.
  - intros H. rewrite H. reflexivity.
  - intros msg H. rewrite H. reflexivity.
  - intros msg H. rewrite H. reflexivity.
  - intros du H. rewrite H. reflexivity.
  - intros p du H Hf. rewrite H. unfold path_exists. rewrite Hf, andb_false_r. reflexivity.
  - intros p du c H Hp Hf Hc. rewrite H. unfold path_exists. rewrite Hf.
    rewrite (truthy_str_of_nonempty p Hp). cbv zeta. rewrite Hc. reflexivity.
  - intros p du msg H Hp Hf. rewrite H. unfold path_exists. rewrite Hf.
    rewrite (truthy_str_of_nonempty p Hp). reflexivity.
Qed.

Lemma getGithubToken_settings_failures_witness :
  (config_json w_no_token = ConfigAbsent -> token_lookup_fails w_no_token [])
  /\ (forall msg, config_json w_no_token = ConfigInvalidJson msg ->
        token_lookup_fails w_no_token
          [Print "Error reading 'config.json'. Make sure it's valid JSON."])
  /\ (forall msg, config_json w_no_token = ConfigReadError msg ->
        token_lookup_fails w_no_token
          [Print ("An error occurred while reading 'config.json': " ++ msg)])
  /\ (forall du, config_json w_no_token = ConfigObject None du ->
        token_lookup_fails w_no_token
          [Print "Token path not found in config or file does not exist: None"])
  /\ (forall p du, config_json w_no_token = ConfigObject (Some p) du ->
        files w_no_token p = None ->
        token_lookup_fails w_no_token
          [Print ("Token path not found in config or file does not exist: " ++ p)])
  /\ (forall p du c, config_json w_no_token = ConfigObject (Some p) du -> p <> "" ->
        files w_no_token p = Some (FileText c) -> strip (universal_newlines c) = "" ->
        token_lookup_fails w_no_token [])
  /\ (forall p du msg, config_json w_no_token = ConfigObject (Some p) du -> p <> "" ->
        files w_no_token p = Some (FileUnreadable msg) ->
        token_lookup_fails w_no_token [Print ("Error reading token file '" ++ p ++ "': " ++ msg)]).
Proof.
  apply (getGithubToken_settings_failures w_no_token). exact I.
Defined.

(** ** Division by zero *)

Lemma bind_not_raise {A B} e (m : M A) (f : A -> M B) :
  snd m <> Raise e -> (forall a, snd (f a) <> Raise e) -> snd (bind m f) <> Raise e.
Proof.
  intros Hm Hf. rewrite snd_bind. destruct (snd m) as [a|e'|]; [apply Hf| |discriminate].
  intros H. injection H as ->. apply Hm. reflexivity.
Qed.

Lemma print_not_raise e s : snd (print s) <> Raise e.
Proof. discriminate. Qed.

Lemma ret_not_raise {A} e (a : A) : snd (ret a) <> Raise e.
Proof. discriminate. Qed.

Lemma requests_get_no_zdiv {A} (api : string -> reply A) url headers :
  snd (requests_get api url headers) <> Raise ZeroDivisionError.
Proof. unfold requests_get. destruct (api url); discriminate. Qed.

Lemma response_json_no_zdiv {A} (body : option A) :
  snd (response_json body) <> Raise ZeroDivisionError.
Proof. destruct body; discriminate. Qed.

Lemma py_truediv_no_zdiv a b : b <> 0 -> snd (py_truediv a b) <> Raise ZeroDivisionError.
Proof.
  intros Hb. unfold py_truediv. rewrite (proj2 (Z.eqb_neq b 0) Hb).
  destruct (SFdiv _ _ _ _); discriminate.
Qed.

Lemma size_str_no_zdiv b : snd (size_str b) <> Raise ZeroDivisionError.
Proof.
  unfold size_str.
  destruct (b <? 1024); [discriminate|].
  destruct (b <? 1024 ^ 2); [|destruct (b <? 1024 ^ 3)];
    (apply bind_not_raise; [apply py_truediv_no_zdiv; lia|intros; discriminate]).
Qed.

Lemma repos_loop_no_zdiv w u headers fuel pageNum perPage repos :
  snd (repos_loop w u headers fuel pageNum perPage repos) <> Raise ZeroDivisionError.
Proof.
  revert pageNum repos. induction fuel as [|fuel IH]; intros pageNum repos; [discriminate|].
  cbn [repos_loop]. apply bind_not_raise; [apply requests_get_no_zdiv|intros resp].
  destruct (status_code resp =? 200).
  - apply bind_not_raise; [apply response_json_no_zdiv|intros [|r rs]; [discriminate|apply IH]].
  - apply bind_not_raise; [apply print_not_raise|intros; discriminate].
Qed.

Lemma analyze_no_zdiv w token repos acc :
  snd (analyze w token repos acc) <> Raise ZeroDivisionError.
Proof.
  revert acc. induction repos as [|r rs IH]; intros acc; [discriminate|].
  cbn [analyze]. apply bind_not_raise; [apply print_not_raise|intros _].
  apply bind_not_raise; [|intros; apply IH].
  unfold getRepoLanguages.
  apply bind_not_raise; [apply requests_get_no_zdiv|intros resp].
  destruct (status_code resp =? 200); [apply response_json_no_zdiv|].
  apply bind_not_raise; [apply print_not_raise|intros; discriminate].
Qed.

Lemma report_no_zdiv u bd c : snd (report u bd c) <> Raise ZeroDivisionError.
Proof.
  unfold report. destruct bd as [|e bd]; [discriminate|].
  apply bind_not_raise; [apply print_not_raise|intros _]. cbv zeta.
  destruct (sum_values (e :: bd) =? 0) eqn:Ht; [discriminate|].
  apply Z.eqb_neq in Ht.
  apply bind_not_raise; [|intros; discriminate].
  induction (sort_desc (e :: bd)) as [|[l b] items IH]; [discriminate|].
  cbn [mapM_]. apply bind_not_raise; [|intros; exact IH].
  unfold language_line.
  apply bind_not_raise; [apply py_truediv_no_zdiv; exact Ht|intros q].
  apply bind_not_raise; [apply size_str_no_zdiv|intros; discriminate].
Qed.

(** X13: [main] never raises [ZeroDivisionError]: the report returns before
    the percentages when the total is 0, and the size strings divide only by
    powers of 1024. *)
Theorem main_never_divides_by_zero (w : World) (fuel : nat) :
  snd (main w fuel) <> Raise ZeroDivisionError.
Proof.
  unfold main. apply bind_not_raise.
  - pose proof (getGithubToken_outcomes w) as Ho.
    destruct (getGithubToken w) as [o r]. cbn [snd] in Ho.
    destruct Ho as [[t [-> _]]| ->]; discriminate.
  - intros [githubToken|msg].
    + apply bind_not_raise.
      * unfold read_username, getDefaultUsername, input.
        destruct (config_json w) as [| | |tp [d|]]; cbn -[strip truthy_str];
          try discriminate.
        destruct (truthy_str d); discriminate.
      * intros u. destruct (negb (truthy_str u)); [discriminate|].
        apply bind_not_raise.
        -- unfold getUserPublicRepos.
           apply bind_not_raise; [apply print_not_raise|intros _].
           apply bind_not_raise; [apply repos_loop_no_zdiv|intros; discriminate].
        -- intros [|r rs]; [discriminate|].
           apply bind_not_raise; [apply print_not_raise|intros _].
           apply bind_not_raise; [apply analyze_no_zdiv|intros [bd c]; apply report_no_zdiv].
    + apply bind_not_raise; [apply print_not_raise|intros _].
      induction pat_instructions as [|s l IH]; [discriminate|].
      cbn [mapM_]. apply bind_not_raise; [apply print_not_raise|intros; exact IH].
Qed.
